(** * Freelance job tracker: the record store and its queries

    A shallow embedding of [freelance-job-tracker.py]
    (class [FreelanceJobTracker]) and the properties of its operations.

    Modelling decisions, all of them visible in the definitions below:
    - the DataFrame [self.jobs] is the list of its rows, in index order;
    - a Python [float] is an exact rational or [NaN]; rounding, overflow and
      infinities are left out.  [NaN] is what pandas uses for a missing
      number, so a missing [hours] is [NaN];
    - a [datetime64] cell is a number of nanoseconds since the epoch, or
      [NaT];
    - [float] applied to a string, [pd.to_datetime] and the conversion pandas
      does when a raw value is assigned into a datetime column are library
      code: they are the fields of the class [Runtime];
    - [datetime.now()] is an argument of the operations that read the clock;
    - the frame always has its eight columns, so the tests
      ['hours' in df.columns] hold;
    - the CSV file is represented by the frame last written to it.  Reading
      it back goes through the text of the fields of the three text
      columns, which [read_csv] types again by what it finds in them; how it
      takes one field ([CsvLib]) is library code.  The text of a number, of
      a date and of a boolean in the five other columns is read back as the
      value written;
    - the column [paid] has dtype [object] in a session started without a
      file and [bool] in a session that loaded the file;
    - what an operation prints is its result, as a [message]; the line that
      [save_data] prints is left out. *)

From Stdlib Require Import List ZArith QArith String Ascii Bool Lia Sorted.
From Stdlib Require Import DecimalString.
Import ListNotations.

Local Open Scope string_scope.
Local Open Scope list_scope.
Local Open Scope Z_scope.

(** ** Python values *)

Inductive float64 : Type :=
| Fin (q : Q)
| NaN.

Inductive pyval : Type :=
| PNone
| PBool (b : bool)
| PInt (z : Z)
| PFloat (x : float64)
| PStr (s : string).

Inductive exn : Type :=
| ValueError
| TypeError
| KeyError.

Inductive result (A : Type) : Type :=
| Ok (a : A)
| Raise (e : exn).

Arguments Ok {A} a.
Arguments Raise {A} e.

Definition bind {A B : Type} (r : result A) (k : A -> result B) : result B :=
  match r with
  | Ok a => k a
  | Raise e => Raise e
  end.

Notation "x <- e ;; k" := (bind e (fun x => k))
  (at level 61, e at next level, right associativity).

(** [Series.notna()] on one cell. *)
Definition notna (x : float64) : bool :=
  match x with
  | Fin _ => true
  | NaN => false
  end.

(** Multiplication of two cells: a missing operand gives a missing product. *)
Definition fmul (x y : float64) : float64 :=
  match x, y with
  | Fin a, Fin b => Fin (a * b)
  | _, _ => NaN
  end.

(** [Series.sum()], which skips missing values and is 0 on nothing. *)
Definition nansum (s : list float64) : Q :=
  fold_right (fun x acc => match x with Fin q => q + acc | NaN => acc end)%Q 0%Q s.

(** Truth value of a Python object, as tested by [if v] and [bool(v)]. *)
Definition truthy (v : pyval) : bool :=
  match v with
  | PNone => false
  | PBool b => b
  | PInt z => negb (z =? 0)
  | PFloat (Fin q) => negb (Qeq_bool q 0)
  | PFloat NaN => true
  | PStr s => negb (s =? "")%string
  end.

(** A datetime64 cell: nanoseconds since 1970-01-01, [None] for NaT. *)
Definition datetime64 : Type := option Z.

(** The dtype of the column [paid].  [load_data] makes it [bool] when it
    reads the file (line 18) and [object] when there is no file: the empty
    frame of lines 21-24 has object columns, and the [pd.concat] of
    [add_job] keeps [paid] an object column from then on.  No operation
    changes it during a session. *)
Inductive dtype : Type :=
| BoolDtype
| ObjectDtype.

(** ** Library functions the tracker calls *)

Class Runtime : Type := {
  (** [float(s)] for a string [s]; [None] when it raises ValueError. *)
  float_of_str : string -> option float64;
  (** [pd.to_datetime(v)]. *)
  to_datetime : pyval -> result datetime64;
  (** The cell stored by [df.loc[mask, col] = v] when [col] holds datetimes. *)
  setitem_datetime : pyval -> result datetime64
}.

Section Tracker.

Context {RT : Runtime}.

(** [float(v)]. *)
Definition py_float (v : pyval) : result float64 :=
  match v with
  | PNone => Raise TypeError
  | PBool b => Ok (Fin (if b then 1 else 0)%Q)
  | PInt z => Ok (Fin (inject_Z z))
  | PFloat x => Ok x
  | PStr s =>
      match float_of_str s with
      | Some x => Ok x
      | None => Raise ValueError
      end
  end.

(** ** Records and the store *)

Record job : Type := mkJob {
  client_name : pyval;
  project_name : pyval;
  rate : float64;
  paid : bool;
  deadline : datetime64;
  date_added : datetime64;
  hours : float64;
  notes : pyval
}.

Definition frame : Type := list job.

(** The tracker object: [jobs] is [self.jobs]; [file] is the content of
    [self.data_file] ([None] while it does not exist) and [saves] counts the
    calls of [to_csv]. *)
Record tracker : Type := mkTracker {
  jobs : frame;
  file : option frame;
  saves : nat
}.

Definition with_jobs (t : tracker) (df : frame) : tracker :=
  mkTracker df (file t) (saves t).

Inductive message : Type :=
| JobAdded (project client : pyval)
| MarkedPaid (project : string)
| NotFound (project : string)
| NoValidFields
| Updated (project : string).

(** How a call ends: with the line it prints, or with an exception. *)
Inductive outcome : Type :=
| Printed (m : message)
| Raised (e : exn).

Definition set_client_name (v : pyval) (j : job) : job :=
  mkJob v (project_name j) (rate j) (paid j) (deadline j) (date_added j) (hours j) (notes j).
Definition set_project_name (v : pyval) (j : job) : job :=
  mkJob (client_name j) v (rate j) (paid j) (deadline j) (date_added j) (hours j) (notes j).
Definition set_rate (x : float64) (j : job) : job :=
  mkJob (client_name j) (project_name j) x (paid j) (deadline j) (date_added j) (hours j) (notes j).
Definition set_paid (b : bool) (j : job) : job :=
  mkJob (client_name j) (project_name j) (rate j) b (deadline j) (date_added j) (hours j) (notes j).
Definition set_deadline (d : datetime64) (j : job) : job :=
  mkJob (client_name j) (project_name j) (rate j) (paid j) d (date_added j) (hours j) (notes j).
Definition set_date_added (d : datetime64) (j : job) : job :=
  mkJob (client_name j) (project_name j) (rate j) (paid j) (deadline j) d (hours j) (notes j).
Definition set_hours (x : float64) (j : job) : job :=
  mkJob (client_name j) (project_name j) (rate j) (paid j) (deadline j) (date_added j) x (notes j).
Definition set_notes (v : pyval) (j : job) : job :=
  mkJob (client_name j) (project_name j) (rate j) (paid j) (deadline j) (date_added j) (hours j) v.

(** [cell == project_name] for a string [project_name]: a cell that is not a
    string is never equal to one. *)
Definition name_is (p : string) (v : pyval) : bool :=
  match v with
  | PStr s => (s =? p)%string
  | _ => false
  end.

(** The mask [self.jobs['project_name'] == project_name]. *)
Definition named (p : string) (j : job) : bool := name_is p (project_name j).

(** [df.loc[mask, col] = value]: every row of the mask is updated. *)
Definition loc_set (mask : job -> bool) (f : job -> job) (df : frame) : frame :=
  map (fun j => if mask j then f j else j) df.

(** [save_data]. *)
Definition save_data (t : tracker) : tracker :=
  mkTracker (jobs t) (Some (jobs t)) (S (saves t)).

(** The dictionary [new_job] of [add_job]; its entries are evaluated in
    this order. *)
Definition new_job (client project rate_arg deadline_arg hours_arg notes_arg : pyval)
    (now : Z) : result job :=
  r <- py_float rate_arg ;;
  d <- to_datetime deadline_arg ;;
  h <- (if truthy hours_arg then py_float hours_arg else Ok NaN) ;;
  Ok (mkJob client project r false d (Some now) h notes_arg).

(** [add_job]. *)
Definition add_job (t : tracker)
    (client project rate_arg deadline_arg hours_arg notes_arg : pyval)
    (now : Z) : tracker * outcome :=
  match new_job client project rate_arg deadline_arg hours_arg notes_arg now with
  | Raise e => (t, Raised e)
  | Ok j => (save_data (with_jobs t (jobs t ++ [j])), Printed (JobAdded project client))
  end.

(** [mark_as_paid]. *)
Definition mark_as_paid (t : tracker) (p : string) : tracker * outcome :=
  if existsb (named p) (jobs t)
  then (save_data (with_jobs t (loc_set (named p) (set_paid true) (jobs t))),
        Printed (MarkedPaid p))
  else (t, Printed (NotFound p)).

(** ** Queries *)

Definition ns_per_day : Z := 86400 * 1000000000.

(** [pd.Timedelta(days=d)]. *)
Definition Timedelta (d : Z) : Z := d * ns_per_day.

(** [cell <= t] and [cell >= t] on a datetime column: NaT compares false. *)
Definition dt_le (c : datetime64) (t : Z) : bool :=
  match c with
  | Some x => x <=? t
  | None => false
  end.

Definition dt_ge (c : datetime64) (t : Z) : bool :=
  match c with
  | Some x => t <=? x
  | None => false
  end.

(** A printed row: the record and the derived column [estimated_pay]. *)
Record row : Type := mkRow {
  row_job : job;
  estimated_pay : float64
}.

(** [if upcoming_deadlines:] for an argument that is [None] or an int. *)
Definition days_given (upcoming_deadlines : option Z) : option Z :=
  match upcoming_deadlines with
  | Some d => if d =? 0 then None else Some d
  | None => None
  end.

(** [list_jobs]: the rows it prints, none when it prints that no job
    matches.  [today] is the value of [datetime.now()]. *)
Definition list_jobs (self_jobs : frame) (filter_unpaid : bool)
    (upcoming_deadlines : option Z) (today : Z) : list row :=
  let df := self_jobs in
  let df := if filter_unpaid then filter (fun j => Bool.eqb (paid j) false) df else df in
  let df :=
    match days_given upcoming_deadlines with
    | Some d =>
        let df := filter (fun j => dt_le (deadline j) (today + Timedelta d)) df in
        filter (fun j => dt_ge (deadline j) today) df
    | None => df
    end in
  match df with
  | [] => []
  | _ :: _ => map (fun j => mkRow j (fmul (hours j) (rate j))) df
  end.

Record stats : Type := mkStats {
  total_jobs : Z;
  paid_jobs : Z;
  unpaid_jobs : Z;
  total_earnings : Q;
  potential_earnings : Q;
  upcoming : frame
}.

(** [Series.sum()] of a boolean column. *)
Definition bool_sum (s : list bool) : Z :=
  fold_right (fun (b : bool) n => (if b then 1 else 0) + n) 0 s.

(** [(df['hours'] * df['rate']).sum()]. *)
Definition pay_sum (df : frame) : Q :=
  nansum (map (fun j => fmul (hours j) (rate j)) df).

(** [self.jobs[~self.jobs['paid']]] (line 97), on a frame that has a row.
    On a [bool] column [~] is the negation and the rows that are not paid
    are selected.  On an [object] column [~] is Python's [~] on each cell,
    which gives the integers -2 and -1; they are taken for column labels,
    which the frame does not have, and KeyError is raised. *)
Definition select_not_paid (paid_dtype : dtype) (df : frame) : result frame :=
  match paid_dtype with
  | BoolDtype => Ok (filter (fun j => negb (paid j)) df)
  | ObjectDtype => Raise KeyError
  end.

(** [get_stats]: the figures it prints, [None] when it prints that there
    are no jobs yet.  Nothing is printed before line 100, so a call that
    raises at line 97 has printed nothing. *)
Definition get_stats (paid_dtype : dtype) (self_jobs : frame) (today : Z)
    : result (option stats) :=
  match self_jobs with
  | [] => Ok None
  | _ :: _ =>
      let total := Z.of_nat (List.length self_jobs) in
      let npaid := bool_sum (map paid self_jobs) in
      let paid_with_hours := filter paid self_jobs in
      unpaid_with_hours <- select_not_paid paid_dtype self_jobs ;;
      Ok (Some (mkStats total npaid (total - npaid)
                  (pay_sum paid_with_hours) (pay_sum unpaid_with_hours)
                  (filter (fun j => dt_le (deadline j) (today + Timedelta 7)
                                    && dt_ge (deadline j) today) self_jobs)))
  end.

(** ** Editing *)

Inductive column : Type :=
| ClientName | ProjectName | Rate | Paid | Deadline | DateAdded | Hours | Notes.

(** [k in valid_columns], with the column found. *)
Definition column_of (k : string) : option column :=
  if (k =? "client_name")%string then Some ClientName
  else if (k =? "project_name")%string then Some ProjectName
  else if (k =? "rate")%string then Some Rate
  else if (k =? "paid")%string then Some Paid
  else if (k =? "deadline")%string then Some Deadline
  else if (k =? "date_added")%string then Some DateAdded
  else if (k =? "hours")%string then Some Hours
  else if (k =? "notes")%string then Some Notes
  else None.

Definition is_column (k : string) : bool :=
  match column_of k with
  | Some _ => true
  | None => false
  end.

(** The dictionary [valid_updates]. *)
Definition valid_updates (kwargs : list (string * pyval)) : list (column * pyval) :=
  flat_map (fun kv => match column_of (fst kv) with
                      | Some c => [(c, snd kv)]
                      | None => []
                      end) kwargs.

(** One turn of the loop of [edit_job], up to the assignment: the coercion
    of [value] for [col], and the change the assignment makes to a row. *)
Definition assignment (col : column) (value : pyval) : result (job -> job) :=
  match col with
  | Deadline => d <- to_datetime value ;; Ok (set_deadline d)
  | Rate => x <- py_float value ;; Ok (set_rate x)
  | Hours => x <- py_float value ;; Ok (set_hours x)
  | Paid => Ok (set_paid (truthy value))
  | ClientName => Ok (set_client_name value)
  | ProjectName => Ok (set_project_name value)
  | Notes => Ok (set_notes value)
  | DateAdded => d <- setitem_datetime value ;; Ok (set_date_added d)
  end.

(** The loop of [edit_job] over [valid_updates.items()]: it stops at the
    first exception, with the frame as the earlier turns left it. *)
Fixpoint apply_updates (p : string) (ups : list (column * pyval)) (df : frame)
    : frame * option exn :=
  match ups with
  | [] => (df, None)
  | (col, value) :: rest =>
      match assignment col value with
      | Raise e => (df, Some e)
      | Ok f => apply_updates p rest (loc_set (named p) f df)
      end
  end.

(** [edit_job]. *)
Definition edit_job (t : tracker) (p : string) (kwargs : list (string * pyval))
    : tracker * outcome :=
  if negb (existsb (named p) (jobs t)) then (t, Printed (NotFound p))
  else
    match valid_updates kwargs with
    | [] => (t, Printed NoValidFields)
    | ups =>
        match apply_updates p ups (jobs t) with
        | (df, Some e) => (with_jobs t df, Raised e)
        | (df, None) => (save_data (with_jobs t df), Printed (Updated p))
        end
    end.

(** ** Monthly earnings *)

(** The civil date (year, month, day) of a day number counted from
    1970-01-01, in the proleptic Gregorian calendar. *)
Definition civil_of_days (n : Z) : Z * Z * Z :=
  let z := n + 719468 in
  let era := z / 146097 in
  let doe := z - era * 146097 in
  let yoe := (doe - doe / 1460 + doe / 36524 - doe / 146096) / 365 in
  let doy := doe - (365 * yoe + yoe / 4 - yoe / 100) in
  let mp := (5 * doy + 2) / 153 in
  let d := doy - (153 * mp + 2) / 5 + 1 in
  let m := if mp <? 10 then mp + 3 else mp - 9 in
  let y := yoe + era * 400 + (if m <=? 2 then 1 else 0) in
  (y, m, d).

(** [Series.dt.to_period('M')] on one cell: the month, numbered from
    1970-01; NaT has none. *)
Definition to_period_M (c : datetime64) : option Z :=
  match c with
  | Some t =>
      let '(y, m, _) := civil_of_days (t / ns_per_day) in
      Some ((y - 1970) * 12 + (m - 1))
  | None => None
  end.

(** The label of a month, as (year, month). *)
Definition month_label (m : Z) : Z * Z := (1970 + m / 12, m mod 12 + 1).

Fixpoint insert_key (k : Z) (ks : list Z) : list Z :=
  match ks with
  | [] => [k]
  | k' :: ks' =>
      if k <? k' then k :: ks
      else if k =? k' then ks
      else k' :: insert_key k ks'
  end.

(** The group keys of a [groupby]: the distinct keys, sorted; rows whose key
    is missing belong to no group. *)
Definition group_keys (keys : list (option Z)) : list Z :=
  fold_right (fun k acc => match k with
                           | Some m => insert_key m acc
                           | None => acc
                           end) [] keys.

Definition key_is (m : Z) (k : option Z) : bool :=
  match k with
  | Some x => x =? m
  | None => false
  end.

(** [df.groupby(key)[val].sum().reset_index()]. *)
Definition groupby_sum (key : job -> option Z) (val : job -> float64) (df : frame)
    : list (Z * Q) :=
  map (fun m => (m, nansum (map val (filter (fun j => key_is m (key j)) df))))
      (group_keys (map key df)).

(** How [generate_earnings_chart] ends: with one of its three messages, or
    with the bars it plots. *)
Inductive chart : Type :=
| NoJobs
| NoPaidJobs
| NoMonthlyData
| Bars (monthly_earnings : list (Z * Q)).

(** [generate_earnings_chart]. *)
Definition generate_earnings_chart (self_jobs : frame) : chart :=
  match self_jobs with
  | [] => NoJobs
  | _ :: _ =>
      let paid_jobs :=
        filter (fun j => paid j && notna (hours j) && notna (rate j)) self_jobs in
      match paid_jobs with
      | [] => NoPaidJobs
      | _ :: _ =>
          let monthly_earnings :=
            groupby_sum (fun j => to_period_M (date_added j))
                        (fun j => fmul (hours j) (rate j)) paid_jobs in
          match monthly_earnings with
          | [] => NoMonthlyData
          | _ :: _ => Bars monthly_earnings
          end
      end
  end.

(** The sequence of (month, total) the chart shows: empty when there is no
    chart. *)
Definition monthly_earnings (self_jobs : frame) : list (Z * Q) :=
  match generate_earnings_chart self_jobs with
  | Bars b => b
  | _ => []
  end.

End Tracker.

(** ** The file

    [to_csv] writes one field for each cell and [read_csv] types each column
    by what it finds in its fields. *)

Class CsvLib : Type := {
  (** [str(v)], the text that [to_csv] writes for a cell of a text column
      that is neither a string nor missing. *)
  py_str : pyval -> string;
  (** The text is one of the markers that [read_csv] takes for a missing
      value, such as NA, NaN or null. *)
  csv_na : string -> bool;
  (** The integer, the number, the boolean that [read_csv] reads in the
      text, if it reads one. *)
  csv_int : string -> option Z;
  csv_float : string -> option float64;
  csv_bool : string -> option bool
}.

Section File.

Context {CL : CsvLib}.

(** The field written for a cell of a text column; a missing value is
    written as the empty field. *)
Definition field_text (v : pyval) : string :=
  match v with
  | PStr s => s
  | PNone => ""
  | PFloat NaN => ""
  | _ => py_str v
  end.

(** A line of the file: the text of the fields of the text columns, and the
    values of the other fields. *)
Record csv_row : Type := mkCsvRow {
  f_client_name : string;
  f_project_name : string;
  f_rate : float64;
  f_paid : bool;
  f_deadline : datetime64;
  f_date_added : datetime64;
  f_hours : float64;
  f_notes : string
}.

(** [df.to_csv(file, index=False)]. *)
Definition to_csv (df : frame) : list csv_row :=
  map (fun j => mkCsvRow (field_text (client_name j)) (field_text (project_name j))
                         (rate j) (paid j) (deadline j) (date_added j) (hours j)
                         (field_text (notes j))) df.

(** The empty field and the markers are missing values. *)
Definition is_na (s : string) : bool := (s =? "")%string || csv_na s.

(** What [read_csv] makes of one field of a column it has to type. *)
Inductive token : Type :=
| TMissing
| TInt (z : Z)
| TFloat (x : float64)
| TBool (b : bool)
| TText.

Definition token_of (s : string) : token :=
  if is_na s then TMissing
  else
    match csv_int s with
    | Some z => TInt z
    | None =>
        match csv_float s with
        | Some x => TFloat x
        | None =>
            match csv_bool s with
            | Some b => TBool b
            | None => TText
            end
        end
    end.

Definition is_int (k : token) : bool :=
  match k with TInt _ => true | _ => false end.
Definition is_number_or_missing (k : token) : bool :=
  match k with TInt _ | TFloat _ | TMissing => true | _ => false end.
Definition is_bool_or_missing (k : token) : bool :=
  match k with TBool _ | TMissing => true | _ => false end.

(** The cells of a column without a declared type: integers if every field
    is one, else numbers if every field is a number or missing, else
    booleans if every field is a boolean or missing, else the texts as they
    stand; a missing field is NaN. *)
Definition infer_column (fields : list string) : list pyval :=
  let tokens := map token_of fields in
  if forallb is_int tokens then
    map (fun k => match k with TInt z => PInt z | _ => PFloat NaN end) tokens
  else if forallb is_number_or_missing tokens then
    map (fun k => match k with
                  | TInt z => PFloat (Fin (inject_Z z))
                  | TFloat x => PFloat x
                  | _ => PFloat NaN
                  end) tokens
  else if forallb is_bool_or_missing tokens then
    map (fun k => match k with TBool b => PBool b | _ => PFloat NaN end) tokens
  else
    map (fun s => if is_na s then PFloat NaN else PStr s) fields.

(** The rows of the frame, from the lines and the typed text columns. *)
Fixpoint rows_of (lines : list csv_row) (clients projects noteses : list pyval) : frame :=
  match lines, clients, projects, noteses with
  | l :: lines', c :: clients', p :: projects', n :: noteses' =>
      mkJob c p (f_rate l) (f_paid l) (f_deadline l) (f_date_added l) (f_hours l) n
      :: rows_of lines' clients' projects' noteses'
  | _, _, _, _ => []
  end.

(** [pd.read_csv(file, parse_dates=['deadline', 'date_added'])]. *)
Definition read_csv (lines : list csv_row) : frame :=
  rows_of lines
    (infer_column (map f_client_name lines))
    (infer_column (map f_project_name lines))
    (infer_column (map f_notes lines)).

(** [load_data], from what [save_data] has written to the file if there is
    one: the frame and the dtype of its column [paid], which
    [astype(bool)] makes [bool]. *)
Definition load_data (file_content : option frame) : frame * dtype :=
  match file_content with
  | Some written => (read_csv (to_csv written), BoolDtype)
  | None => ([], ObjectDtype)
  end.

(** The collection that a new session finds after [save_data]. *)
Definition reload (t : tracker) : frame := fst (load_data (file (save_data t))).

End File.

(** ** The menu

    [main] reads its answers with [input]; here they are the list of the
    lines still to be read.  The tracker it starts from is the one that
    [FreelanceJobTracker()] has loaded. *)

(** [c.lower()]; only the letters A to Z matter for the comparisons with
    ['yes'] and ['no']. *)
Definition lower_ascii (c : ascii) : ascii :=
  let n := nat_of_ascii c in
  if ((65 <=? n) && (n <=? 90))%nat then ascii_of_nat (n + 32) else c.

Fixpoint lower (s : string) : string :=
  match s with
  | EmptyString => EmptyString
  | String c s' => String (lower_ascii c) (lower s')
  end.

(** [x if x else None] for a line [x]. *)
Definition blank_to_none (x : string) : pyval :=
  if (x =? "")%string then PNone else PStr x.

(** [if x: updates[k] = x]. *)
Definition update_if_given (k x : string) : list (string * pyval) :=
  if (x =? "")%string then [] else [(k, PStr x)].

(** The dictionary [updates] of choice 7, in the order of its insertions. *)
Definition menu_updates (client rate_ans deadline_ans hours_ans paid_ans notes_ans : string)
    : list (string * pyval) :=
  update_if_given "client_name" client
  ++ update_if_given "rate" rate_ans
  ++ update_if_given "deadline" deadline_ans
  ++ update_if_given "hours" hours_ans
  ++ (if (lower paid_ans =? "yes")%string then [("paid", PBool true)] else [])
  ++ (if (lower paid_ans =? "no")%string then [("paid", PBool false)] else [])
  ++ update_if_given "notes" notes_ans.

(** What one turn of the menu shows. *)
Inductive shown : Type :=
| ShownMessage (m : message)
| ShownRows (rows : list row)
| ShownStats (s : option stats)
| ShownChart (c : chart)
| NoChangesMade
| InvalidChoice.

(** How [main] ends: by choice 9, by an exception that nothing catches, or
    by [input] finding no line left. *)
Inductive ending : Type :=
| Goodbye
| Uncaught (e : exn)
| EndOfInput.

Inductive step : Type :=
| Next (t : tracker) (rest : list string) (s : shown)
| Stop (t : tracker) (e : ending).

(** The end of the turn of choice 6. *)
Definition after_stats (t : tracker) (r : result (option stats)) (rest : list string)
    : step :=
  match r with
  | Ok s => Next t rest (ShownStats s)
  | Raise e => Stop t (Uncaught e)
  end.

(** The end of a turn that called [add_job], [mark_as_paid] or [edit_job]. *)
Definition after_call (r : tracker * outcome) (rest : list string) : step :=
  match r with
  | (t, Printed m) => Next t rest (ShownMessage m)
  | (t, Raised e) => Stop t (Uncaught e)
  end.

(** One turn of the loop of [main]; [now] is the clock during the turn and
    [paid_dtype] the dtype of the column [paid] in this session. *)
Definition menu_step {RT : Runtime} (paid_dtype : dtype) (t : tracker)
    (lines : list string) (now : Z) : step :=
  match lines with
  | [] => Stop t EndOfInput
  | choice :: lines =>
      if (choice =? "1")%string then
        match lines with
        | client :: project :: rate_ans :: deadline_ans :: hours_ans :: notes_ans :: rest =>
            after_call (add_job t (PStr client) (PStr project) (PStr rate_ans)
                          (PStr deadline_ans) (blank_to_none hours_ans)
                          (blank_to_none notes_ans) now) rest
        | _ => Stop t EndOfInput
        end
      else if (choice =? "2")%string then
        Next t lines (ShownRows (list_jobs (jobs t) false None now))
      else if (choice =? "3")%string then
        Next t lines (ShownRows (list_jobs (jobs t) true None now))
      else if (choice =? "4")%string then
        Next t lines (ShownRows (list_jobs (jobs t) false (Some 7) now))
      else if (choice =? "5")%string then
        match lines with
        | project :: rest => after_call (mark_as_paid t project) rest
        | [] => Stop t EndOfInput
        end
      else if (choice =? "6")%string then
        after_stats t (get_stats paid_dtype (jobs t) now) lines
      else if (choice =? "7")%string then
        match lines with
        | project :: client :: rate_ans :: deadline_ans :: hours_ans :: paid_ans
            :: notes_ans :: rest =>
            match menu_updates client rate_ans deadline_ans hours_ans paid_ans notes_ans with
            | [] => Next t rest NoChangesMade
            | updates => after_call (edit_job t project updates) rest
            end
        | _ => Stop t EndOfInput
        end
      else if (choice =? "8")%string then
        Next t lines (ShownChart (generate_earnings_chart (jobs t)))
      else if (choice =? "9")%string then Stop t Goodbye
      else Next t lines InvalidChoice
  end.

(** The loop of [main], for at most [fuel] turns; turn [i] runs at time
    [clock i].  It gives the tracker at the end, what the turns showed and
    how the loop ended. *)
Fixpoint main_loop {RT : Runtime} (paid_dtype : dtype) (fuel : nat)
    (clock : nat -> Z) (i : nat) (t : tracker) (lines : list string)
    : option (tracker * list shown * ending) :=
  match fuel with
  | O => None
  | S fuel' =>
      match menu_step paid_dtype t lines (clock i) with
      | Stop t' e => Some (t', [], e)
      | Next t' rest s =>
          match main_loop paid_dtype fuel' clock (S i) t' rest with
          | Some (t'', out, e) => Some (t'', s :: out, e)
          | None => None
          end
      end
  end.

(** [main]: every turn reads a line, so one turn more than there are lines
    is enough. *)
Definition main {RT : Runtime} (paid_dtype : dtype) (t : tracker) (clock : nat -> Z)
    (lines : list string) : option (tracker * list shown * ending) :=
  main_loop paid_dtype (S (List.length lines)) clock 0%nat t lines.

(** ** A runtime for the worked examples

    [iso_runtime] reads plain signed decimal literals and [nan] as [float]
    does, and dates written [YYYY-MM-DD] as [pd.to_datetime] does.  Other
    spellings that the libraries accept (exponents, infinities, other date
    formats) are outside it; the general theorems hold for every runtime
    and only the closed examples use this one. *)

Definition digit (c : ascii) : option Z :=
  let n := Z.of_nat (nat_of_ascii c) in
  if (48 <=? n) && (n <=? 57) then Some (n - 48) else None.

Fixpoint digits_from (acc : Z) (cs : list ascii) : option Z :=
  match cs with
  | [] => Some acc
  | c :: cs' =>
      match digit c with
      | Some d => digits_from (10 * acc + d) cs'
      | None => None
      end
  end.

(** The text before the first [sep] and, if [sep] occurs, the text after. *)
Fixpoint cut (sep : ascii) (cs : list ascii) : list ascii * option (list ascii) :=
  match cs with
  | [] => ([], None)
  | c :: cs' =>
      if Ascii.eqb c sep then ([], Some cs')
      else let '(a, b) := cut sep cs' in (c :: a, b)
  end.

Definition unsigned_decimal (cs : list ascii) : option Q :=
  let '(ip, fp) := cut "."%char cs in
  let fp := match fp with Some f => f | None => [] end in
  match ip ++ fp with
  | [] => None
  | _ :: _ =>
      match digits_from 0 ip, digits_from 0 fp with
      | Some i, Some f =>
          let scale := 10 ^ Z.of_nat (List.length fp) in
          Some (Qred (Qmake (i * scale + f) (Z.to_pos scale)))
      | _, _ => None
      end
  end.

Definition parse_float (s : string) : option float64 :=
  if (s =? "nan")%string then Some NaN
  else
    match list_ascii_of_string s with
    | "-"%char :: cs => option_map (fun q => Fin (Qred (- q))) (unsigned_decimal cs)
    | "+"%char :: cs => option_map Fin (unsigned_decimal cs)
    | cs => option_map Fin (unsigned_decimal cs)
    end.

(** The day number of a civil date, counted from 1970-01-01. *)
Definition days_of_civil (y m d : Z) : Z :=
  let y := if m <=? 2 then y - 1 else y in
  let era := y / 400 in
  let yoe := y - era * 400 in
  let doy := (153 * (if 2 <? m then m - 3 else m + 9) + 2) / 5 + d - 1 in
  let doe := yoe * 365 + yoe / 4 - yoe / 100 + doy in
  era * 146097 + doe - 719468.

Definition parse_iso_date (s : string) : option Z :=
  let '(ys, rest) := cut "-"%char (list_ascii_of_string s) in
  match rest with
  | None => None
  | Some rest =>
      let '(ms, ds) := cut "-"%char rest in
      match ds with
      | None => None
      | Some ds =>
          if (List.length ys =? 4)%nat && (List.length ms =? 2)%nat
             && (List.length ds =? 2)%nat
          then
            match digits_from 0 ys, digits_from 0 ms, digits_from 0 ds with
            | Some y, Some m, Some d =>
                let n := days_of_civil y m d in
                if match civil_of_days n with
                   | (y', m', d') => (y' =? y) && (m' =? m) && (d' =? d)
                   end
                then Some (n * ns_per_day)
                else None
            | _, _, _ => None
            end
          else None
      end
  end.

Definition iso_datetime (v : pyval) : result datetime64 :=
  match v with
  | PNone => Ok None
  | PStr s =>
      match parse_iso_date s with
      | Some t => Ok (Some t)
      | None => Raise ValueError
      end
  | _ => Raise TypeError
  end.

Definition iso_runtime : Runtime :=
  {| float_of_str := parse_float;
     to_datetime := iso_datetime;
     setitem_datetime := iso_datetime |}.

(** Fields as [read_csv] takes them by default, for the worked examples:
    its markers of missing values, integers and plain decimals, and the
    three spellings of each boolean.  Numbers written in other ways are
    outside it. *)
Definition na_markers : list string :=
  ["#N/A"; "#N/A N/A"; "#NA"; "-1.#IND"; "-1.#QNAN"; "-NaN"; "-nan"; "1.#IND";
   "1.#QNAN"; "<NA>"; "N/A"; "NA"; "NULL"; "NaN"; "None"; "n/a"; "nan"; "null"].

Definition parse_int (s : string) : option Z :=
  match list_ascii_of_string s with
  | [] => None
  | "-"%char :: c :: cs => option_map Z.opp (digits_from 0 (c :: cs))
  | "+"%char :: c :: cs => digits_from 0 (c :: cs)
  | "-"%char :: [] => None
  | "+"%char :: [] => None
  | cs => digits_from 0 cs
  end.

Definition parse_bool (s : string) : option bool :=
  if existsb (String.eqb s) ["True"; "TRUE"; "true"] then Some true
  else if existsb (String.eqb s) ["False"; "FALSE"; "false"] then Some false
  else None.

Definition str_of_value (v : pyval) : string :=
  match v with
  | PBool true => "True"
  | PBool false => "False"
  | PInt z => NilZero.string_of_int (Z.to_int z)
  | PStr s => s
  | _ => ""
  end.

Definition plain_csv : CsvLib :=
  {| py_str := str_of_value;
     csv_na := fun s => existsb (String.eqb s) na_markers;
     csv_int := parse_int;
     csv_float := parse_float;
     csv_bool := parse_bool |}.

(** ** The operations as the description words them

    These definitions follow the prose description of the store, to be
    compared with the operations above. *)

(** Marking only the first row named [p]. *)
Fixpoint mark_first_match (p : string) (df : frame) : frame :=
  match df with
  | [] => []
  | j :: df' =>
      if named p j then set_paid true j :: df'
      else j :: mark_first_match p df'
  end.

(** A deadline in the closed window from [today] to [d] days later. *)
Definition in_window (today d : Z) (c : datetime64) : bool :=
  match c with
  | Some x => (today <=? x) && (x <=? today + d * ns_per_day)
  | None => false
  end.

(** Both amounts of a record are present. *)
Definition both_present (j : job) : bool := notna (hours j) && notna (rate j).

(** [hours * rate] of a record that has both. *)
Definition pay (j : job) : Q :=
  match hours j, rate j with
  | Fin h, Fin r => (h * r)%Q
  | _, _ => 0%Q
  end.

(** The sum of [hours * rate] over the records selected by [sel] that have
    both amounts. *)
Definition earnings_over (sel : job -> bool) (df : frame) : Q :=
  fold_right Qplus 0%Q (map pay (filter (fun j => sel j && both_present j) df)).

(** The calendar month in which a record was added. *)
Definition month_of (j : job) : option Z := to_period_M (date_added j).

(** The sum of [hours * rate] over the paid records added in month [m]
    that have both amounts. *)
Definition earnings_in_month (m : Z) (df : frame) : Q :=
  fold_right Qplus 0%Q
    (map pay (filter (fun j => paid j && both_present j && key_is m (month_of j)) df)).

(** A rate is a non-negative number; hours are one when present. *)
Definition rate_ok (x : float64) : bool :=
  match x with
  | Fin q => Qle_bool 0 q
  | NaN => false
  end.

Definition hours_ok (x : float64) : bool :=
  match x with
  | Fin q => Qle_bool 0 q
  | NaN => true
  end.

Definition amounts_ok (j : job) : bool := rate_ok (rate j) && hours_ok (hours j).

(** The eight attributes of a record. *)
Definition attribute_names : list string :=
  ["client_name"; "project_name"; "rate"; "paid"; "deadline"; "date_added";
   "hours"; "notes"].

(** The coercion of an update succeeds. *)
Definition coerces {RT : Runtime} (cv : column * pyval) : bool :=
  match assignment (fst cv) (snd cv) with
  | Ok _ => true
  | Raise _ => false
  end.

(** The arguments of [add_job] and the updates of [edit_job] whose amounts,
    once converted, are non-negative. *)
Definition rate_arg_ok {RT : Runtime} (v : pyval) : bool :=
  match py_float v with
  | Ok x => rate_ok x
  | Raise _ => true
  end.

Definition hours_arg_ok {RT : Runtime} (v : pyval) : bool :=
  if truthy v
  then match py_float v with
       | Ok x => hours_ok x
       | Raise _ => true
       end
  else true.

Definition update_ok {RT : Runtime} (cv : column * pyval) : bool :=
  match fst cv with
  | Rate => match py_float (snd cv) with Ok x => rate_ok x | Raise _ => true end
  | Hours => match py_float (snd cv) with Ok x => hours_ok x | Raise _ => true end
  | _ => true
  end.

(** The content of one cell of a record, whatever its column. *)
Inductive cellv : Type :=
| VObj (v : pyval)
| VNum (x : float64)
| VBool (b : bool)
| VTime (d : datetime64).

(** [row[col]]. *)
Definition cell (col : column) (j : job) : cellv :=
  match col with
  | ClientName => VObj (client_name j)
  | ProjectName => VObj (project_name j)
  | Rate => VNum (rate j)
  | Paid => VBool (paid j)
  | Deadline => VTime (deadline j)
  | DateAdded => VTime (date_added j)
  | Hours => VNum (hours j)
  | Notes => VObj (notes j)
  end.

Definition column_eqb (a b : column) : bool :=
  match a, b with
  | ClientName, ClientName | ProjectName, ProjectName | Rate, Rate | Paid, Paid
  | Deadline, Deadline | DateAdded, DateAdded | Hours, Hours | Notes, Notes => true
  | _, _ => false
  end.

(** [col] is one of the columns that the mapping [kwargs] updates. *)
Definition updates_column (col : column) (kwargs : list (string * pyval)) : bool :=
  existsb (fun cv => column_eqb (fst cv) col) (valid_updates kwargs).

(** The calls that a turn of the menu can make on the tracker [t] at time
    [now], with the tracker and the outcome they give. *)
Definition menu_call {RT : Runtime} (t : tracker) (now : Z) (t' : tracker)
    (o : outcome) : Prop :=
  (exists client project rate_ans deadline_ans hours_ans notes_ans : string,
      add_job t (PStr client) (PStr project) (PStr rate_ans) (PStr deadline_ans)
              (blank_to_none hours_ans) (blank_to_none notes_ans) now = (t', o))
  \/ (exists project : string, mark_as_paid t project = (t', o))
  \/ (exists project client rate_ans deadline_ans hours_ans paid_ans notes_ans : string,
        edit_job t project
          (menu_updates client rate_ans deadline_ans hours_ans paid_ans notes_ans)
        = (t', o)).

(** The tracker after a turn of the menu. *)
Definition step_tracker (s : step) : tracker :=
  match s with
  | Next t _ _ => t
  | Stop t _ => t
  end.

(** The prompt of choice 7 for the column [col] has been answered: with
    some text, or for [paid] with yes or no in any case of letters.  There
    is no prompt for the project name and the date of addition. *)
Definition answered (col : column)
    (client rate_ans deadline_ans hours_ans paid_ans notes_ans : string) : bool :=
  match col with
  | ClientName => negb (client =? "")%string
  | Rate => negb (rate_ans =? "")%string
  | Deadline => negb (deadline_ans =? "")%string
  | Hours => negb (hours_ans =? "")%string
  | Paid => (lower paid_ans =? "yes")%string || (lower paid_ans =? "no")%string
  | Notes => negb (notes_ans =? "")%string
  | ProjectName | DateAdded => false
  end.



(** The cell is missing, or a string that is no marker of a missing value. *)
Definition text_or_missing {CL : CsvLib} (v : pyval) : bool :=
  match v with
  | PStr s => negb (is_na s)
  | PNone => true
  | PFloat NaN => true
  | _ => false
  end.

(** The cell is a string that [read_csv] takes for text: not for a
    missing value, a number or a boolean. *)
Definition plain_text {CL : CsvLib} (v : pyval) : bool :=
  match v with
  | PStr s => match token_of s with TText => true | _ => false end
  | _ => false
  end.

Definition missing (v : pyval) : bool :=
  match v with
  | PNone => true
  | PFloat NaN => true
  | _ => false
  end.

(** A text column that keeps its type in the file: strings and missing
    values only, with a plain text among them unless all are missing. *)
Definition keeps_text {CL : CsvLib} (cells : list pyval) : bool :=
  forallb text_or_missing cells && (existsb plain_text cells || forallb missing cells).

(** What is in memory is what the file holds: the frame last written, or
    nothing at all while there is no file. *)
Definition in_sync (t : tracker) : Prop :=
  file t = Some (jobs t) \/ (file t = None /\ jobs t = []).

(** The columns that identify a record: its project name and the time it
    was added. *)
Definition identity (j : job) : pyval * datetime64 := (project_name j, date_added j).

(** ** Data of the worked examples *)

Definition jun_1_2025 : Z := 1748736000000000000.
Definition may_20_2025 : Z := jun_1_2025 - 12 * ns_per_day.

Definition website (client : string) : job :=
  mkJob (PStr client) (PStr "Website") (Fin 50) false (Some jun_1_2025)
        (Some may_20_2025) (Fin 10) PNone.

Definition one_website : tracker := mkTracker [website "Acme"] None 0.

Definition two_websites : tracker :=
  mkTracker [website "Acme"; website "Globex"] None 0.

Definition no_jobs : tracker := mkTracker [] None 0.

(** Two paid records added in May 2025, of 5 and 3 hours at a rate of 20,
    and an unpaid one. *)
Definition may_jobs : frame :=
  [mkJob (PStr "Acme") (PStr "Logo") (Fin 20) true (Some jun_1_2025)
         (Some may_20_2025) (Fin 5) PNone;
   mkJob (PStr "Acme") (PStr "Flyer") (Fin 20) false (Some jun_1_2025)
         (Some may_20_2025) (Fin 7) PNone;
   mkJob (PStr "Globex") (PStr "Banner") (Fin 20) true (Some jun_1_2025)
         (Some (may_20_2025 + 3 * ns_per_day)) (Fin 3) PNone].


(** A session at the menu: a job is added with its hours left blank, marked
    as paid, its rate edited, and the user leaves. *)
Definition session_lines : list string :=
  ["1"; "Acme"; "Logo"; "35.5"; "2025-06-01"; ""; "";
   "5"; "Logo";
   "7"; "Logo"; ""; "40"; ""; "6"; "No"; "";
   "x";
   "9"].

Definition noon_clock (i : nat) : Z := may_20_2025 + Z.of_nat i * 1000000000.

(** * Properties *)

(** ** Marking a job as paid *)

Lemma loc_set_rows (mask : job -> bool) (f : job -> job) (df : frame) :
  Forall2 (fun j j' => j' = if mask j then f j else j) df (loc_set mask f df).
Proof.
  induction df as [|j df IH]; simpl; constructor; auto.
Qed.

Lemma loc_set_length (mask : job -> bool) (f : job -> job) (df : frame) :
  List.length (loc_set mask f df) = List.length df.
Proof. unfold loc_set. apply length_map. Qed.

(** C1, as the code has it: when some record is named [p], [mark_as_paid]
    sets [paid] on every record named [p], leaves the other records and
    their order alone, and writes the file; when none is, it reports that
    the job was not found and changes nothing. *)
Theorem mark_as_paid_marks_all_matches (t : tracker) (p : string) :
  if existsb (named p) (jobs t)
  then
    snd (mark_as_paid t p) = Printed (MarkedPaid p)
    /\ Forall2 (fun j j' => j' = if named p j then set_paid true j else j)
               (jobs t) (jobs (fst (mark_as_paid t p)))
    /\ file (fst (mark_as_paid t p)) = Some (jobs (fst (mark_as_paid t p)))
    /\ saves (fst (mark_as_paid t p)) = S (saves t)
  else
    mark_as_paid t p = (t, Printed (NotFound p)).
Proof.
  unfold mark_as_paid.
  destruct (existsb (named p) (jobs t)); simpl; [|reflexivity].
  repeat split. apply loc_set_rows.
Qed.

(** C1, refuted as stated: with two records named "Website",
    [mark_as_paid] marks both, not the first only. *)
Lemma mark_as_paid_not_first_only :
  jobs (fst (mark_as_paid two_websites "Website"))
    <> mark_first_match "Website" (jobs two_websites)
  /\ map paid (jobs (fst (mark_as_paid two_websites "Website"))) = [true; true]
  /\ map paid (mark_first_match "Website" (jobs two_websites)) = [true; false].
Proof.
  split; [|split]; [|reflexivity|reflexivity].
  intro H. apply (f_equal (map paid)) in H. vm_compute in H. discriminate H.
Qed.

(** ** Adding a job *)

(** C2: when [float(rate)] raises, which for a string that is not a number
    is with ValueError, [add_job] raises the same exception and the tracker
    is as before: no record appended, nothing written. *)
Theorem add_job_bad_rate_unchanged {RT : Runtime} (t : tracker)
    (client project rate_arg deadline_arg hours_arg notes_arg : pyval)
    (now : Z) (e : exn) :
  py_float rate_arg = Raise e ->
  add_job t client project rate_arg deadline_arg hours_arg notes_arg now
    = (t, Raised e)
  /\ match rate_arg with
     | PStr _ => e = ValueError
     | _ => e = TypeError
     end.
Proof.
  intros H. split.
  - unfold add_job, new_job. rewrite H. reflexivity.
  - destruct rate_arg as [|b|z|x|s]; simpl in H; try discriminate H.
    + now inversion H.
    + destruct (float_of_str s); [discriminate H|now inversion H].
Qed.

Lemma add_job_bad_rate_unchanged_witness :
  py_float (RT := iso_runtime) (PStr "abc") = Raise ValueError
  /\ add_job (RT := iso_runtime) one_website (PStr "Initech") (PStr "Logo")
       (PStr "abc") (PStr "2025-06-01") (PStr "4") PNone jun_1_2025
     = (one_website, Raised ValueError).
Proof.
  split; [reflexivity|].
  apply (add_job_bad_rate_unchanged (RT := iso_runtime)). reflexivity.
Defined.

(** ** Editing a job *)

Lemma valid_updates_known (kwargs : list (string * pyval)) :
  valid_updates (filter (fun kv => is_column (fst kv)) kwargs) = valid_updates kwargs.
Proof.
  induction kwargs as [|[k v] kwargs IH]; simpl; [reflexivity|].
  destruct (is_column k) eqn:Hc; unfold is_column in Hc;
    destruct (column_of k) eqn:Hk; try discriminate Hc; simpl.
  - rewrite Hk. simpl. now rewrite IH.
  - exact IH.
Qed.

Lemma valid_updates_unknown (kwargs : list (string * pyval)) :
  valid_updates (filter (fun kv => negb (is_column (fst kv))) kwargs) = [].
Proof.
  induction kwargs as [|[k v] kwargs IH]; simpl; [reflexivity|].
  destruct (is_column k) eqn:Hc; unfold is_column in Hc;
    destruct (column_of k) eqn:Hk; try discriminate Hc; simpl.
  - exact IH.
  - rewrite Hk. exact IH.
Qed.

Lemma is_column_names (k : string) :
  is_column k = existsb (String.eqb k) attribute_names.
Proof.
  unfold is_column, column_of, attribute_names. simpl.
  repeat match goal with
         | |- context [(k =? ?s)%string] => destruct (k =? s)%string; simpl; auto
         end.
Qed.

(** C8: [edit_job] acts as if the keys that are not attributes of a record
    were not in the mapping, wherever they stand in it; a mapping of such
    keys only changes nothing, writes nothing and raises nothing.  The keys
    it applies are the eight attribute names. *)
Theorem edit_job_ignores_unknown_keys {RT : Runtime} (t : tracker) (p : string)
    (kwargs : list (string * pyval)) :
  edit_job t p kwargs
    = edit_job t p (filter (fun kv => is_column (fst kv)) kwargs)
  /\ edit_job t p (filter (fun kv => negb (is_column (fst kv))) kwargs)
     = (t, Printed (if existsb (named p) (jobs t) then NoValidFields else NotFound p))
  /\ (forall k, is_column k = existsb (String.eqb k) attribute_names).
Proof.
  split; [|split].
  - unfold edit_job. now rewrite valid_updates_known.
  - unfold edit_job. rewrite valid_updates_unknown.
    now destruct (existsb (named p) (jobs t)).
  - exact is_column_names.
Qed.

Lemma apply_updates_stops {RT : Runtime} (p : string) (pre : list (column * pyval)) :
  forall (col : column) (v : pyval) (post : list (column * pyval)) (e : exn) (df : frame),
    forallb coerces pre = true ->
    assignment col v = Raise e ->
    apply_updates p (pre ++ (col, v) :: post) df
      = (fst (apply_updates p pre df), Some e)
    /\ snd (apply_updates p pre df) = None.
Proof.
  induction pre as [|[c w] pre IH]; intros col v post e df Hpre Hfail; simpl.
  - rewrite Hfail. split; reflexivity.
  - simpl in Hpre. apply andb_true_iff in Hpre. destruct Hpre as [Hc Hpre].
    unfold coerces in Hc. simpl in Hc.
    destruct (assignment c w) as [f|e']; [|discriminate Hc].
    apply IH; assumption.
Qed.

(** C3, as the code has it: when the coercion of a field raises, [edit_job]
    raises that exception and writes nothing, and the records named [p] keep
    the updates of the fields that stand before the failing one in the
    mapping; the failing field and the later ones are not applied. *)
Theorem edit_job_failure_keeps_earlier_updates {RT : Runtime} (t : tracker)
    (p : string) (kwargs : list (string * pyval))
    (pre : list (column * pyval)) (col : column) (v : pyval)
    (post : list (column * pyval)) (e : exn) :
  existsb (named p) (jobs t) = true ->
  valid_updates kwargs = pre ++ (col, v) :: post ->
  forallb coerces pre = true ->
  assignment col v = Raise e ->
  edit_job t p kwargs
    = (mkTracker (fst (apply_updates p pre (jobs t))) (file t) (saves t), Raised e)
  /\ snd (apply_updates p pre (jobs t)) = None.
Proof.
  intros Hfound Hups Hpre Hfail.
  destruct (apply_updates_stops p pre col v post e (jobs t) Hpre Hfail) as [Hrun Hok].
  split; [|exact Hok].
  unfold edit_job. rewrite Hfound. simpl. rewrite Hups.
  assert (Hne : pre ++ (col, v) :: post <> []) by (destruct pre; discriminate).
  revert Hrun Hne. generalize (pre ++ (col, v) :: post) as ups.
  intros ups Hrun Hne. destruct ups as [|u ups]; [contradiction|].
  simpl in Hrun |- *. rewrite Hrun. reflexivity.
Qed.

Lemma edit_job_failure_keeps_earlier_updates_witness :
  existsb (named "Website") (jobs one_website) = true
  /\ valid_updates [("client_name", PStr "Globex"); ("colour", PStr "red");
                    ("rate", PStr "abc"); ("notes", PStr "rush")]
     = [(ClientName, PStr "Globex")] ++ (Rate, PStr "abc") :: [(Notes, PStr "rush")]
  /\ edit_job (RT := iso_runtime) one_website "Website"
       [("client_name", PStr "Globex"); ("colour", PStr "red");
        ("rate", PStr "abc"); ("notes", PStr "rush")]
     = (mkTracker [set_client_name (PStr "Globex") (website "Acme")] None 0,
        Raised ValueError).
Proof.
  split; [reflexivity|]. split; [reflexivity|].
  apply (edit_job_failure_keeps_earlier_updates (RT := iso_runtime) one_website
           "Website" _ [(ClientName, PStr "Globex")] Rate (PStr "abc")
           [(Notes, PStr "rush")] ValueError); reflexivity.
Defined.

(** C3, refuted as stated: an update of the client name followed by a rate
    that is not a number raises, and the client name has been changed. *)
Lemma edit_job_partial_mutation :
  snd (edit_job (RT := iso_runtime) one_website "Website"
         [("client_name", PStr "Globex"); ("rate", PStr "abc")])
    = Raised ValueError
  /\ map client_name (jobs one_website) = [PStr "Acme"]
  /\ map client_name
       (jobs (fst (edit_job (RT := iso_runtime) one_website "Website"
                     [("client_name", PStr "Globex"); ("rate", PStr "abc")])))
     = [PStr "Globex"].
Proof. repeat split. Qed.

(** ** Listing *)

Lemma filter_filter {A : Type} (f g : A -> bool) (l : list A) :
  filter g (filter f l) = filter (fun x => f x && g x) l.
Proof.
  induction l as [|x l IH]; simpl; [reflexivity|].
  destruct (f x); simpl; [destruct (g x)|]; now rewrite IH.
Qed.

Lemma window_filters (today d : Z) (c : datetime64) :
  dt_le c (today + Timedelta d) && dt_ge c today = in_window today d c.
Proof.
  destruct c as [x|]; simpl; [|reflexivity].
  unfold Timedelta. apply andb_comm.
Qed.

Lemma row_job_rows (df : frame) :
  map row_job
      (match df with
       | [] => []
       | _ :: _ => map (fun j => mkRow j (fmul (hours j) (rate j))) df
       end) = df.
Proof.
  destruct df as [|j df]; [reflexivity|].
  rewrite map_map. simpl. now rewrite map_id.
Qed.

(** C4, as the code has it: with a window of [d] days, [d] not 0,
    [list_jobs] prints exactly the records whose deadline lies between
    [today] and [today + d] days, both included, and that are unpaid when
    [filter_unpaid] is set; a window of 0 days filters nothing, like no
    window.  The rows come in the order of the records, each with its
    estimated pay. *)
Theorem list_jobs_window (df : frame) (filter_unpaid : bool) (d today : Z) :
  map row_job (list_jobs df filter_unpaid (Some d) today)
    = filter (fun j => (if filter_unpaid then negb (paid j) else true)
                       && (if d =? 0 then true else in_window today d (deadline j)))
             df
  /\ Forall (fun r => estimated_pay r = fmul (hours (row_job r)) (rate (row_job r)))
            (list_jobs df filter_unpaid (Some d) today).
Proof.
  split.
  - unfold list_jobs. rewrite row_job_rows. unfold days_given.
    destruct (d =? 0).
    + destruct filter_unpaid.
      * apply filter_ext. intros j. now destruct (paid j).
      * induction df as [|j df IH]; simpl; [reflexivity|]. f_equal. exact IH.
    + rewrite filter_filter.
      destruct filter_unpaid.
      * rewrite filter_filter. apply filter_ext. intros j.
        rewrite window_filters. now destruct (paid j).
      * apply filter_ext. intros j. now rewrite window_filters.
  - unfold list_jobs.
    match goal with
    | |- Forall _ (match ?l with [] => [] | _ :: _ => _ end) =>
        generalize l; intros l'; destruct l' as [|j l']; [constructor|]
    end.
    apply Forall_forall. intros r Hr. apply in_map_iff in Hr.
    destruct Hr as [x [<- _]]. reflexivity.
Qed.

(** C4, refuted as stated: with a window of 0 days, a record whose deadline
    is twelve days away is listed. *)
Lemma list_jobs_zero_days_lists_all :
  map row_job (list_jobs (jobs one_website) false (Some 0) may_20_2025)
    = [website "Acme"]
  /\ in_window may_20_2025 0 (deadline (website "Acme")) = false.
Proof. split; reflexivity. Qed.

(** ** Statistics *)

Lemma pay_sum_filter (sel : job -> bool) (df : frame) :
  pay_sum (filter sel df) = earnings_over sel df.
Proof.
  unfold pay_sum, earnings_over, both_present, pay.
  induction df as [|j df IH]; simpl; [reflexivity|].
  destruct (sel j); simpl; [|exact IH].
  destruct (hours j) eqn:Hh; destruct (rate j) eqn:Hr; simpl;
    rewrite ?Hh, ?Hr; now rewrite IH.
Qed.

(** C7, as the code has it: for a collection that is not empty and whose
    column [paid] is boolean, as it is once loaded from the file,
    [get_stats] gives as total earnings the sum of [hours * rate] over the
    paid records that have both, and as potential earnings the same sum over
    the unpaid ones; a record without hours is left out of the sum and
    nothing is raised. *)
Theorem get_stats_earnings (j : job) (df : frame) (today : Z) :
  exists s : stats,
    get_stats BoolDtype (j :: df) today = Ok (Some s)
    /\ total_earnings s = earnings_over paid (j :: df)
    /\ potential_earnings s = earnings_over (fun x => negb (paid x)) (j :: df).
Proof.
  unfold get_stats, select_not_paid. eexists. split; [reflexivity|].
  cbn [total_earnings potential_earnings].
  split; apply pay_sum_filter.
Qed.

(** C7, refuted as stated: for the empty collection [get_stats] computes no
    figures at all, whatever the dtype of [paid]. *)
Lemma get_stats_empty_no_figures :
  get_stats BoolDtype (jobs no_jobs) jun_1_2025 = Ok None
  /\ get_stats ObjectDtype (jobs no_jobs) jun_1_2025 = Ok None.
Proof. split; reflexivity. Qed.

(** ** Monthly earnings *)

Lemma insert_key_In (k x : Z) (ks : list Z) :
  In x (insert_key k ks) <-> x = k \/ In x ks.
Proof.
  induction ks as [|k' ks IH]; simpl.
  - intuition.
  - destruct (k <? k') eqn:Hlt; simpl; [intuition|].
    destruct (k =? k') eqn:Heq; simpl.
    + apply Z.eqb_eq in Heq. subst k'. intuition.
    + rewrite IH. intuition.
Qed.

Lemma insert_key_sorted (k : Z) (ks : list Z) :
  StronglySorted Z.lt ks -> StronglySorted Z.lt (insert_key k ks).
Proof.
  induction ks as [|k' ks IH]; simpl; intros Hs.
  - repeat constructor.
  - inversion Hs as [|? ? Hs' Hall]; subst.
    destruct (k <? k') eqn:Hlt.
    + apply Z.ltb_lt in Hlt. constructor; [exact Hs|].
      constructor; [exact Hlt|].
      eapply Forall_impl; [|exact Hall]. intros y Hy. lia.
    + destruct (k =? k') eqn:Heq; [exact Hs|].
      apply Z.ltb_ge in Hlt. apply Z.eqb_neq in Heq.
      constructor; [apply IH; exact Hs'|].
      apply Forall_forall. intros y Hy. apply insert_key_In in Hy.
      destruct Hy as [->|Hy]; [lia|].
      rewrite Forall_forall in Hall. now apply Hall.
Qed.

Lemma group_keys_In (m : Z) (keys : list (option Z)) :
  In m (group_keys keys) <-> In (Some m) keys.
Proof.
  induction keys as [|[k|] keys IH]; simpl.
  - tauto.
  - rewrite insert_key_In, IH. split.
    + intros [->|H]; auto.
    + intros [H|H]; [inversion H|]; auto.
  - rewrite IH. split; [auto|]. intros [H|H]; [discriminate H|exact H].
Qed.

Lemma group_keys_sorted (keys : list (option Z)) :
  StronglySorted Z.lt (group_keys keys).
Proof.
  induction keys as [|[k|] keys IH]; simpl.
  - constructor.
  - now apply insert_key_sorted.
  - exact IH.
Qed.

Lemma groupby_sum_keys (key : job -> option Z) (val : job -> float64) (df : frame) :
  map fst (groupby_sum key val df) = group_keys (map key df).
Proof.
  unfold groupby_sum. rewrite map_map. simpl. apply map_id.
Qed.

(** Whatever message the chart ends with, the sequence it stands for is the
    grouping of the selected records. *)
Lemma monthly_earnings_groupby (df : frame) :
  monthly_earnings df
    = groupby_sum month_of (fun j => fmul (hours j) (rate j))
        (filter (fun j => paid j && notna (hours j) && notna (rate j)) df).
Proof.
  unfold monthly_earnings, generate_earnings_chart.
  destruct df as [|j df]; [reflexivity|].
  destruct (filter _ (j :: df)) as [|j' sel]; [reflexivity|].
  fold month_of.
  destruct (groupby_sum _ _ (j' :: sel)); reflexivity.
Qed.

Lemma month_sum (m : Z) (df : frame) :
  nansum (map (fun j => fmul (hours j) (rate j))
            (filter (fun j => key_is m (month_of j))
               (filter (fun j => paid j && notna (hours j) && notna (rate j)) df)))
    = earnings_in_month m df.
Proof.
  unfold earnings_in_month, both_present, pay.
  induction df as [|j df IH]; simpl; [reflexivity|].
  destruct (paid j); simpl; [|exact IH].
  destruct (hours j) eqn:Hh; simpl; [|exact IH].
  destruct (rate j) eqn:Hr; simpl; [|exact IH].
  destruct (key_is m (month_of j)); simpl; [|exact IH].
  rewrite Hh, Hr. simpl. now rewrite IH.
Qed.

(** C6: the monthly earnings have one entry for each month in which some
    paid record with hours and rate was added, and for no other month; the
    months come in increasing order, each once; the total of a month is the
    sum of [hours * rate] over the paid records with both amounts added in
    that month; and no record gives no entry. *)
Theorem monthly_earnings_by_month (df : frame) :
  StronglySorted Z.lt (map fst (monthly_earnings df))
  /\ (forall m : Z,
        In m (map fst (monthly_earnings df))
        <-> exists j, In j df /\ paid j = true /\ both_present j = true
                      /\ month_of j = Some m)
  /\ (forall (m : Z) (s : Q),
        In (m, s) (monthly_earnings df) -> s = earnings_in_month m df)
  /\ monthly_earnings [] = [].
Proof.
  rewrite monthly_earnings_groupby.
  split; [|split; [|split]].
  - rewrite groupby_sum_keys. apply group_keys_sorted.
  - intros m. rewrite groupby_sum_keys, group_keys_In, in_map_iff.
    split.
    + intros [j [Hm Hj]]. apply filter_In in Hj. destruct Hj as [Hin Hsel].
      exists j. unfold both_present.
      apply andb_true_iff in Hsel. destruct Hsel as [Hsel Hr].
      apply andb_true_iff in Hsel. destruct Hsel as [Hp Hh].
      rewrite Hh, Hr. auto.
    + intros [j [Hin [Hp [Hb Hm]]]]. exists j. split; [exact Hm|].
      apply filter_In. split; [exact Hin|].
      unfold both_present in Hb. rewrite Hp. simpl. exact Hb.
  - intros m s Hin. unfold groupby_sum in Hin. apply in_map_iff in Hin.
    destruct Hin as [m' [Heq _]]. inversion Heq; subst. apply month_sum.
  - reflexivity.
Qed.

(** The example of the description: 5 and 3 hours at a rate of 20, both paid
    and added in May 2025, give one entry of 160 for that month. *)
Example monthly_earnings_may :
  map (fun e => (month_label (fst e), snd e)) (monthly_earnings may_jobs)
    = [((2025, 5), 160 # 1)].
Proof. vm_compute. reflexivity. Qed.

(** ** Amounts that are not negative *)

Lemma loc_set_amounts_ok (mask : job -> bool) (f : job -> job) (df : frame) :
  (forall j, amounts_ok j = true -> amounts_ok (f j) = true) ->
  forallb amounts_ok df = true ->
  forallb amounts_ok (loc_set mask f df) = true.
Proof.
  intros Hf. induction df as [|j df IH]; simpl; [reflexivity|].
  intros H. apply andb_true_iff in H. destruct H as [Hj Hdf].
  apply andb_true_iff. split; [|now apply IH].
  destruct (mask j); auto.
Qed.

Lemma assignment_amounts_ok {RT : Runtime} (col : column) (v : pyval) (f : job -> job) :
  update_ok (col, v) = true ->
  assignment col v = Ok f ->
  forall j, amounts_ok j = true -> amounts_ok (f j) = true.
Proof.
  unfold update_ok, amounts_ok. simpl. intros Hok Ha j Hj.
  apply andb_true_iff in Hj. destruct Hj as [Hr Hh].
  destruct col; simpl in Ha, Hok;
    try (inversion Ha; subst f; simpl; now rewrite Hr, Hh).
  - destruct (py_float v); simpl in Ha; inversion Ha; subst f; simpl.
    now rewrite Hok, Hh.
  - destruct (to_datetime v); simpl in Ha; inversion Ha; subst f; simpl.
    now rewrite Hr, Hh.
  - destruct (setitem_datetime v); simpl in Ha; inversion Ha; subst f; simpl.
    now rewrite Hr, Hh.
  - destruct (py_float v); simpl in Ha; inversion Ha; subst f; simpl.
    now rewrite Hok, Hr.
Qed.

Lemma apply_updates_amounts_ok {RT : Runtime} (p : string) (ups : list (column * pyval)) :
  forall df : frame,
    forallb update_ok ups = true ->
    forallb amounts_ok df = true ->
    forallb amounts_ok (fst (apply_updates p ups df)) = true.
Proof.
  induction ups as [|[col v] ups IH]; simpl; intros df Hups Hdf; [exact Hdf|].
  apply andb_true_iff in Hups. destruct Hups as [Hu Hups].
  destruct (assignment col v) as [f|e] eqn:Ha; [|exact Hdf].
  apply IH; [exact Hups|].
  apply loc_set_amounts_ok; [|exact Hdf].
  now apply (assignment_amounts_ok col v).
Qed.

(** C9, as the code has it: [add_job] and [edit_job] reject no value for
    its sign; they keep every rate a non-negative number, and every hours
    one or absent, when the rate and hours they are given convert to such
    values. *)
Theorem amounts_ok_kept_for_nonnegative_input {RT : Runtime} (t : tracker)
    (client project rate_arg deadline_arg hours_arg notes_arg : pyval) (now : Z)
    (p : string) (kwargs : list (string * pyval)) :
  forallb amounts_ok (jobs t) = true ->
  rate_arg_ok rate_arg = true ->
  hours_arg_ok hours_arg = true ->
  forallb update_ok (valid_updates kwargs) = true ->
  forallb amounts_ok
    (jobs (fst (add_job t client project rate_arg deadline_arg hours_arg
                  notes_arg now))) = true
  /\ forallb amounts_ok (jobs (fst (edit_job t p kwargs))) = true.
Proof.
  intros Ht Hr Hh Hups. split.
  - unfold add_job, new_job, rate_arg_ok, hours_arg_ok in *.
    destruct (py_float rate_arg) as [r|e]; simpl; [|exact Ht].
    destruct (to_datetime deadline_arg) as [d|e]; simpl; [|exact Ht].
    destruct (truthy hours_arg); simpl.
    + destruct (py_float hours_arg) as [h|e]; simpl; [|exact Ht].
      rewrite forallb_app, Ht. unfold amounts_ok. simpl. now rewrite Hr, Hh.
    + rewrite forallb_app, Ht. unfold amounts_ok. simpl. now rewrite Hr.
  - unfold edit_job.
    destruct (negb (existsb (named p) (jobs t))); [exact Ht|].
    destruct (valid_updates kwargs) as [|u ups] eqn:Hv; [exact Ht|].
    pose proof (apply_updates_amounts_ok p (u :: ups) (jobs t) Hups Ht) as H.
    destruct (apply_updates p (u :: ups) (jobs t)) as [df [e|]]; exact H.
Qed.

Lemma amounts_ok_kept_for_nonnegative_input_witness :
  forallb amounts_ok (jobs one_website) = true
  /\ rate_arg_ok (RT := iso_runtime) (PStr "35.5") = true
  /\ hours_arg_ok (RT := iso_runtime) (PStr "4") = true
  /\ forallb (update_ok (RT := iso_runtime))
       (valid_updates [("rate", PStr "60"); ("hours", PStr "0")]) = true
  /\ forallb amounts_ok
       (jobs (fst (add_job (RT := iso_runtime) one_website (PStr "Initech")
                     (PStr "Logo") (PStr "35.5") (PStr "2025-06-01") (PStr "4")
                     PNone may_20_2025))) = true
  /\ forallb amounts_ok
       (jobs (fst (edit_job (RT := iso_runtime) one_website "Website"
                     [("rate", PStr "60"); ("hours", PStr "0")]))) = true.
Proof.
  do 4 (split; [reflexivity|]).
  apply (amounts_ok_kept_for_nonnegative_input (RT := iso_runtime)); reflexivity.
Defined.

(** C9, refuted as stated: [add_job] stores a rate of -5 and [edit_job]
    stores -3 hours; neither rejects the value. *)
Lemma negative_amounts_are_stored :
  forallb amounts_ok (jobs no_jobs) = true
  /\ add_job (RT := iso_runtime) no_jobs (PStr "Acme") (PStr "Website")
       (PStr "-5") (PStr "2025-06-01") (PStr "10") PNone may_20_2025
     = (mkTracker
          [mkJob (PStr "Acme") (PStr "Website") (Fin (-5 # 1)) false
                 (Some jun_1_2025) (Some may_20_2025) (Fin 10) PNone]
          (Some [mkJob (PStr "Acme") (PStr "Website") (Fin (-5 # 1)) false
                       (Some jun_1_2025) (Some may_20_2025) (Fin 10) PNone])
          1,
        Printed (JobAdded (PStr "Website") (PStr "Acme")))
  /\ rate_ok (Fin (-5 # 1)) = false
  /\ forallb amounts_ok (jobs one_website) = true
  /\ snd (edit_job (RT := iso_runtime) one_website "Website" [("hours", PStr "-3")])
     = Printed (Updated "Website")
  /\ map hours
       (jobs (fst (edit_job (RT := iso_runtime) one_website "Website"
                     [("hours", PStr "-3")])))
     = [Fin (-3 # 1)]
  /\ hours_ok (Fin (-3 # 1)) = false.
Proof. repeat split. Qed.

(** ** Hours given as a false value *)

Lemma pay_sum_skips_missing_hours (j : job) (df1 df2 : frame) :
  hours j = NaN -> pay_sum (df1 ++ j :: df2) = pay_sum (df1 ++ df2).
Proof.
  intros Hj. unfold pay_sum.
  induction df1 as [|x df1 IH]; simpl.
  - now rewrite Hj.
  - now rewrite IH.
Qed.

Lemma falsy_hours_values :
  truthy (PInt 0) = false /\ truthy (PFloat (Fin 0)) = false
  /\ truthy (PStr "") = false /\ truthy (PBool false) = false.
Proof. repeat split. Qed.

(** C10: when the [hours] argument of [add_job] is a false value, such as
    the number 0 or the empty string, and the rate and the deadline convert,
    the record is added with its hours absent, not 0: its [hours * rate] is
    missing, so the record is skipped by the sums of earnings and never
    enters the monthly earnings, paid or not. *)
Theorem add_job_falsy_hours_absent {RT : Runtime} (t : tracker)
    (client project rate_arg deadline_arg hours_arg notes_arg : pyval) (now : Z)
    (r : float64) (d : datetime64) :
  truthy hours_arg = false ->
  py_float rate_arg = Ok r ->
  to_datetime deadline_arg = Ok d ->
  exists j : job,
    add_job t client project rate_arg deadline_arg hours_arg notes_arg now
      = (save_data (with_jobs t (jobs t ++ [j])), Printed (JobAdded project client))
    /\ hours j = NaN
    /\ fmul (hours j) (rate j) = NaN
    /\ (forall (b : bool) (df1 df2 : frame),
          pay_sum (df1 ++ set_paid b j :: df2) = pay_sum (df1 ++ df2))
    /\ (forall (b : bool) (df : frame),
          monthly_earnings (df ++ [set_paid b j]) = monthly_earnings df).
Proof.
  intros Hh Hr Hd.
  exists (mkJob client project r false d (Some now) NaN notes_arg).
  split; [|split; [|split; [|split]]].
  - unfold add_job, new_job. rewrite Hr, Hd, Hh. reflexivity.
  - reflexivity.
  - reflexivity.
  - intros b df1 df2. now apply pay_sum_skips_missing_hours.
  - intros b df. rewrite !monthly_earnings_groupby, filter_app. simpl.
    rewrite andb_false_r. simpl. now rewrite app_nil_r.
Qed.

Lemma add_job_falsy_hours_absent_witness :
  truthy (PInt 0) = false
  /\ py_float (RT := iso_runtime) (PStr "50.0") = Ok (Fin 50)
  /\ to_datetime (Runtime := iso_runtime) (PStr "2025-06-01") = Ok (Some jun_1_2025)
  /\ exists j : job,
       add_job (RT := iso_runtime) no_jobs (PStr "Acme") (PStr "Website")
         (PStr "50.0") (PStr "2025-06-01") (PInt 0) PNone may_20_2025
       = (save_data (with_jobs no_jobs (jobs no_jobs ++ [j])),
          Printed (JobAdded (PStr "Website") (PStr "Acme")))
       /\ hours j = NaN.
Proof.
  do 3 (split; [reflexivity|]).
  destruct (add_job_falsy_hours_absent (RT := iso_runtime) no_jobs (PStr "Acme")
              (PStr "Website") (PStr "50.0") (PStr "2025-06-01") (PInt 0) PNone
              may_20_2025 (Fin 50) (Some jun_1_2025)
              eq_refl eq_refl eq_refl) as [j [Hadd [Hhours _]]].
  exists j. split; assumption.
Defined.

(** * Further properties of the store *)

(** ** Adding and marking *)

(** X1: [add_job] adds one record or none: when it raises, the tracker is as
    before; otherwise the records of before are followed by exactly one new
    record, which carries the client, project and notes as given, is unpaid
    and dated [now], and the file holds the new frame. *)
Theorem add_job_appends_one_or_nothing {RT : Runtime} (t : tracker)
    (client project rate_arg deadline_arg hours_arg notes_arg : pyval) (now : Z) :
  match add_job t client project rate_arg deadline_arg hours_arg notes_arg now with
  | (t', Raised _) => t' = t
  | (t', Printed m) =>
      m = JobAdded project client
      /\ (exists j : job,
            jobs t' = jobs t ++ [j]
            /\ client_name j = client /\ project_name j = project
            /\ notes j = notes_arg /\ paid j = false /\ date_added j = Some now)
      /\ List.length (jobs t') = S (List.length (jobs t))
      /\ file t' = Some (jobs t') /\ saves t' = S (saves t)
  end.
Proof.
  unfold add_job, new_job.
  destruct (py_float rate_arg) as [r|e]; simpl; [|reflexivity].
  destruct (to_datetime deadline_arg) as [d|e]; simpl; [|reflexivity].
  destruct (if truthy hours_arg then py_float hours_arg else Ok NaN) as [h|e];
    simpl; [|reflexivity].
  split; [reflexivity|]. split.
  - eexists. split; [reflexivity|]. simpl. repeat split.
  - rewrite length_app. simpl. split; [lia|]. split; reflexivity.
Qed.

Lemma loc_set_named (p : string) (f : job -> job) (df : frame) :
  (forall j, project_name (f j) = project_name j) ->
  map (named p) (loc_set (named p) f df) = map (named p) df.
Proof.
  intros Hf. unfold loc_set. rewrite map_map. apply map_ext. intros j.
  destruct (named p j) eqn:Hn; [|exact Hn].
  unfold named in *. now rewrite Hf.
Qed.

Lemma existsb_map {A : Type} (f : A -> bool) (l : list A) :
  existsb f l = existsb (fun b => b) (map f l).
Proof. induction l as [|x l IH]; simpl; [reflexivity|]. now rewrite IH. Qed.

Lemma loc_set_set_paid_twice (p : string) (df : frame) :
  loc_set (named p) (set_paid true) (loc_set (named p) (set_paid true) df)
    = loc_set (named p) (set_paid true) df.
Proof.
  unfold loc_set. rewrite map_map. apply map_ext. intros j.
  destruct (named p j) eqn:Hn; [|now rewrite Hn].
  change (named p (set_paid true j)) with (named p j). now rewrite Hn.
Qed.

(** X2: [mark_as_paid] twice is [mark_as_paid] once: the second call finds
    the same records, leaves every one as the first call left it, prints the
    same line and raises nothing; it only writes the file once more. *)
Theorem mark_as_paid_idempotent (t : tracker) (p : string) :
  jobs (fst (mark_as_paid (fst (mark_as_paid t p)) p)) = jobs (fst (mark_as_paid t p))
  /\ snd (mark_as_paid (fst (mark_as_paid t p)) p) = snd (mark_as_paid t p)
  /\ file (fst (mark_as_paid (fst (mark_as_paid t p)) p))
     = file (fst (mark_as_paid t p)).
Proof.
  destruct (mark_as_paid t p) as [t1 o1] eqn:H1. simpl.
  unfold mark_as_paid in H1.
  destruct (existsb (named p) (jobs t)) eqn:Hfound; inversion H1; subst t1 o1; clear H1.
  - assert (Hstill : existsb (named p) (loc_set (named p) (set_paid true) (jobs t)) = true).
    { rewrite existsb_map, loc_set_named by reflexivity.
      now rewrite <- existsb_map. }
    unfold mark_as_paid. simpl. rewrite Hstill. simpl.
    rewrite loc_set_set_paid_twice. repeat split.
  - unfold mark_as_paid. rewrite Hfound. repeat split.
Qed.

(** X3: [mark_as_paid] changes nothing but [paid], and only upwards: every
    record keeps its place and its other seven fields, and a record that
    was paid stays paid, whatever the name given. *)
Theorem mark_as_paid_only_sets_paid (t : tracker) (p : string) :
  Forall2 (fun j j' => j' = set_paid (paid j') j /\ (paid j = true -> paid j' = true))
          (jobs t) (jobs (fst (mark_as_paid t p))).
Proof.
  unfold mark_as_paid.
  destruct (existsb (named p) (jobs t)); simpl.
  - induction (jobs t) as [|j df IH]; simpl; constructor; [|exact IH].
    destruct (named p j); [split; reflexivity|].
    split; [now destruct j|auto].
  - induction (jobs t) as [|j df IH]; constructor; [|exact IH].
    split; [now destruct j|auto].
Qed.

Lemma rows_of_frame (df : frame) (r : row) :
  In r (match df with
        | [] => []
        | _ :: _ => map (fun j => mkRow j (fmul (hours j) (rate j))) df
        end) ->
  In (row_job r) df /\ estimated_pay r = fmul (hours (row_job r)) (rate (row_job r)).
Proof.
  destruct df as [|j df]; [intros []|].
  intros Hr. apply in_map_iff in Hr. destruct Hr as [x [<- Hx]]. now split.
Qed.

(** Every printed row is a record of the frame, unpaid when only unpaid
    jobs were asked for. *)
Lemma list_jobs_rows (df : frame) (filter_unpaid : bool)
    (upcoming_deadlines : option Z) (today : Z) (r : row) :
  In r (list_jobs df filter_unpaid upcoming_deadlines today) ->
  In (row_job r) df /\ (filter_unpaid = true -> paid (row_job r) = false).
Proof.
  unfold list_jobs. intros Hr. apply rows_of_frame in Hr. destruct Hr as [Hr _].
  assert (Hsel : In (row_job r)
                   (if filter_unpaid
                    then filter (fun j => Bool.eqb (paid j) false) df else df)).
  { destruct (days_given upcoming_deadlines); [|exact Hr].
    apply filter_In in Hr. destruct Hr as [Hr _].
    apply filter_In in Hr. now destruct Hr. }
  destruct filter_unpaid.
  - apply filter_In in Hsel. destruct Hsel as [Hin Hp]. split; [exact Hin|].
    intros _. now destruct (paid (row_job r)).
  - split; [exact Hsel|discriminate].
Qed.

(** X4: once a project is marked as paid, no record of that name is left in
    the listing of unpaid jobs, with or without a window of deadlines. *)
Theorem marked_project_leaves_unpaid_listing (t : tracker) (p : string)
    (upcoming_deadlines : option Z) (today : Z) :
  Forall (fun r => named p (row_job r) = false)
         (list_jobs (jobs (fst (mark_as_paid t p))) true upcoming_deadlines today).
Proof.
  apply Forall_forall. intros r Hr.
  apply list_jobs_rows in Hr. destruct Hr as [Hin Hunpaid].
  specialize (Hunpaid eq_refl).
  unfold mark_as_paid in Hin.
  destruct (existsb (named p) (jobs t)) eqn:Hfound; simpl in Hin.
  - unfold loc_set in Hin. apply in_map_iff in Hin.
    destruct Hin as [j [Hj _]].
    destruct (named p j) eqn:Hn.
    + rewrite <- Hj in Hunpaid. discriminate Hunpaid.
    + now rewrite <- Hj.
  - destruct (named p (row_job r)) eqn:Hn; [|reflexivity].
    assert (existsb (named p) (jobs t) = true)
      by (apply existsb_exists; eauto).
    congruence.
Qed.

(** ** Listing and statistics *)

Lemma rows_map (df : frame) :
  match df with
  | [] => []
  | _ :: _ => map (fun j => mkRow j (fmul (hours j) (rate j))) df
  end = map (fun j => mkRow j (fmul (hours j) (rate j))) df.
Proof. now destruct df. Qed.

Lemma filter_map_rows (f : job -> bool) (df : frame) :
  filter (fun r => f (row_job r)) (map (fun j => mkRow j (fmul (hours j) (rate j))) df)
    = map (fun j => mkRow j (fmul (hours j) (rate j))) (filter f df).
Proof.
  induction df as [|j df IH]; simpl; [reflexivity|].
  destruct (f j); simpl; now rewrite IH.
Qed.

Lemma filter_swap {A : Type} (f g : A -> bool) (l : list A) :
  filter f (filter g l) = filter g (filter f l).
Proof.
  rewrite !filter_filter. apply filter_ext. intros x. apply andb_comm.
Qed.

(** X5: the listing of unpaid jobs is the full listing with the paid rows
    taken out, in the same order and with the same estimated pay, for every
    window of deadlines. *)
Theorem list_jobs_unpaid_is_sublisting (df : frame) (upcoming_deadlines : option Z)
    (today : Z) :
  list_jobs df true upcoming_deadlines today
    = filter (fun r => negb (paid (row_job r)))
             (list_jobs df false upcoming_deadlines today).
Proof.
  unfold list_jobs. rewrite !rows_map.
  rewrite (filter_map_rows (fun j => negb (paid j))). f_equal.
  assert (Hu : forall l : frame,
             filter (fun j => Bool.eqb (paid j) false) l
             = filter (fun j => negb (paid j)) l).
  { intros l. apply filter_ext. intros j. now destruct (paid j). }
  rewrite Hu.
  destruct (days_given upcoming_deadlines) as [d|]; [|reflexivity].
  rewrite (filter_swap (fun j => negb (paid j))). f_equal.
  apply filter_swap.
Qed.

Lemma bool_sum_paid (df : frame) :
  bool_sum (map paid df) = Z.of_nat (List.length (filter paid df)).
Proof.
  induction df as [|j df IH]; simpl; [reflexivity|].
  rewrite IH. destruct (paid j); simpl List.length; lia.
Qed.

Lemma filter_split_length {A : Type} (f : A -> bool) (l : list A) :
  (List.length (filter f l) + List.length (filter (fun x => negb (f x)) l))%nat
    = List.length l.
Proof.
  induction l as [|x l IH]; simpl; [reflexivity|].
  destruct (f x); simpl; lia.
Qed.

(** X6: for a collection that is not empty and whose column [paid] is
    boolean, the counts of [get_stats] are the number of records, of paid
    records and of unpaid records, and the first is the sum of the other
    two. *)
Theorem get_stats_counts (j : job) (df : frame) (today : Z) :
  exists s : stats,
    get_stats BoolDtype (j :: df) today = Ok (Some s)
    /\ total_jobs s = Z.of_nat (List.length (j :: df))
    /\ paid_jobs s = Z.of_nat (List.length (filter paid (j :: df)))
    /\ unpaid_jobs s
       = Z.of_nat (List.length (filter (fun x => negb (paid x)) (j :: df)))
    /\ total_jobs s = paid_jobs s + unpaid_jobs s.
Proof.
  unfold get_stats, select_not_paid. eexists. split; [reflexivity|].
  cbn [total_jobs paid_jobs unpaid_jobs].
  rewrite bool_sum_paid.
  pose proof (filter_split_length paid (j :: df)) as Hlen.
  repeat split; lia.
Qed.

(** X7: for a collection that is not empty and whose column [paid] is
    boolean, the upcoming deadlines of [get_stats] are the records of the
    listing with a window of 7 days, paid or not, in the same order. *)
Theorem get_stats_upcoming_is_week_listing (j : job) (df : frame) (today : Z) :
  exists s : stats,
    get_stats BoolDtype (j :: df) today = Ok (Some s)
    /\ upcoming s = map row_job (list_jobs (j :: df) false (Some 7) today).
Proof.
  unfold get_stats, select_not_paid. eexists. split; [reflexivity|].
  cbn [upcoming]. unfold list_jobs. rewrite row_job_rows.
  cbn [days_given Z.eqb]. now rewrite filter_filter.
Qed.

(** X9: for a collection that is not empty and whose column [paid] is
    boolean, the potential earnings of [get_stats] are the sum of the
    estimated pay over the listing of unpaid jobs, taken in the order of
    the listing. *)
Theorem potential_earnings_is_unpaid_listing_sum (j : job) (df : frame) (today : Z) :
  exists s : stats,
    get_stats BoolDtype (j :: df) today = Ok (Some s)
    /\ potential_earnings s
       = nansum (map estimated_pay (list_jobs (j :: df) true None today)).
Proof.
  unfold get_stats, select_not_paid. eexists. split; [reflexivity|].
  cbn [potential_earnings]. unfold list_jobs. cbn [days_given].
  rewrite rows_map, map_map. cbn [estimated_pay]. unfold pay_sum.
  apply (f_equal nansum). apply (f_equal (map _)).
  apply filter_ext. intros x. now destruct (paid x).
Qed.

(** ** Editing *)

Lemma loc_set_others (p : string) (f : job -> job) (df0 df : frame) :
  Forall2 (fun j j' => named p j = false -> j' = j) df0 df ->
  Forall2 (fun j j' => named p j = false -> j' = j) df0 (loc_set (named p) f df).
Proof.
  induction 1 as [|j j' df0 df Hj _ IH]; simpl; constructor; [|exact IH].
  intros Hn. rewrite (Hj Hn), Hn. reflexivity.
Qed.

Lemma apply_updates_others {RT : Runtime} (p : string) (ups : list (column * pyval)) :
  forall df0 df : frame,
    Forall2 (fun j j' => named p j = false -> j' = j) df0 df ->
    Forall2 (fun j j' => named p j = false -> j' = j) df0 (fst (apply_updates p ups df)).
Proof.
  induction ups as [|[col v] ups IH]; simpl; intros df0 df H; [exact H|].
  destruct (assignment col v) as [f|e]; [|exact H].
  apply IH. now apply loc_set_others.
Qed.

Lemma Forall2_same {A : Type} (R : A -> A -> Prop) (l : list A) :
  (forall x, R x x) -> Forall2 R l l.
Proof. intros HR. induction l; constructor; auto. Qed.

(** X10: [edit_job] never touches a record of another project: whatever the
    mapping, and also when a coercion raises on the way, the frame keeps its
    length and order, and every record that was not named [p] is exactly as
    it was. *)
Theorem edit_job_leaves_other_projects {RT : Runtime} (t : tracker) (p : string)
    (kwargs : list (string * pyval)) :
  Forall2 (fun j j' => named p j = false -> j' = j)
          (jobs t) (jobs (fst (edit_job t p kwargs)))
  /\ List.length (jobs (fst (edit_job t p kwargs))) = List.length (jobs t).
Proof.
  assert (H : Forall2 (fun j j' => named p j = false -> j' = j)
                      (jobs t) (jobs (fst (edit_job t p kwargs)))).
  { unfold edit_job.
    destruct (negb (existsb (named p) (jobs t))); [now apply Forall2_same|].
    destruct (valid_updates kwargs) as [|u ups]; [now apply Forall2_same|].
    pose proof (apply_updates_others p (u :: ups) (jobs t) (jobs t)
                  (Forall2_same _ _ (fun j _ => eq_refl))) as Ho.
    destruct (apply_updates p (u :: ups) (jobs t)) as [df [e|]]; exact Ho. }
  split; [exact H|]. symmetry. eapply Forall2_length. exact H.
Qed.

(** X11: an edit of [paid] alone with a value that Python takes for true,
    which every string but the empty one is, leaves the tracker as
    [mark_as_paid] for the same project does. *)
Theorem edit_paid_true_is_mark_as_paid {RT : Runtime} (t : tracker) (p : string)
    (v : pyval) :
  truthy v = true ->
  fst (edit_job t p [("paid", v)]) = fst (mark_as_paid t p).
Proof.
  intros Hv. unfold edit_job, mark_as_paid.
  destruct (existsb (named p) (jobs t)); simpl; [|reflexivity].
  now rewrite Hv.
Qed.

Lemma edit_paid_true_is_mark_as_paid_witness :
  truthy (PStr "no") = true
  /\ fst (edit_job (RT := iso_runtime) one_website "Website" [("paid", PStr "no")])
     = fst (mark_as_paid one_website "Website").
Proof.
  split; [reflexivity|].
  apply (edit_paid_true_is_mark_as_paid (RT := iso_runtime)). reflexivity.
Defined.

Lemma valid_updates_app (a b : list (string * pyval)) :
  valid_updates (a ++ b) = valid_updates a ++ valid_updates b.
Proof. unfold valid_updates. apply flat_map_app. Qed.

Lemma apply_updates_app {RT : Runtime} (p : string) (ua : list (column * pyval)) :
  forall (ub : list (column * pyval)) (df : frame),
    forallb coerces ua = true ->
    apply_updates p (ua ++ ub) df = apply_updates p ub (fst (apply_updates p ua df))
    /\ snd (apply_updates p ua df) = None.
Proof.
  induction ua as [|[col v] ua IH]; simpl; intros ub df Hc; [now split|].
  apply andb_true_iff in Hc. destruct Hc as [Hc Hua].
  unfold coerces in Hc. simpl in Hc.
  destruct (assignment col v) as [f|e]; [|discriminate Hc].
  now apply IH.
Qed.

Lemma loc_set_nobody (mask : job -> bool) (f : job -> job) (df : frame) :
  existsb mask df = false -> loc_set mask f df = df.
Proof.
  induction df as [|j df IH]; simpl; [reflexivity|].
  intros H. apply orb_false_iff in H. destruct H as [Hj Hdf].
  now rewrite Hj, IH.
Qed.

Lemma apply_updates_nobody {RT : Runtime} (p : string) (ups : list (column * pyval))
    (df : frame) :
  existsb (named p) df = false -> fst (apply_updates p ups df) = df.
Proof.
  intros Hno. induction ups as [|[col v] ups IH]; simpl; [reflexivity|].
  destruct (assignment col v) as [f|e]; [|reflexivity].
  now rewrite loc_set_nobody.
Qed.

(** The frame in memory after [edit_job], in every case. *)
Lemma edit_job_frame {RT : Runtime} (t : tracker) (p : string)
    (kwargs : list (string * pyval)) :
  jobs (fst (edit_job t p kwargs))
    = fst (apply_updates p (valid_updates kwargs) (jobs t)).
Proof.
  unfold edit_job.
  destruct (existsb (named p) (jobs t)) eqn:Hfound; cbn [negb].
  - destruct (valid_updates kwargs) as [|u ups]; [reflexivity|].
    destruct (apply_updates p (u :: ups) (jobs t)) as [df [e|]]; reflexivity.
  - now rewrite apply_updates_nobody.
Qed.

(** X12: one edit with the fields of [a] followed by those of [b] leaves
    the same records in memory as an edit with [a] and then an edit with
    [b], when every value of [a] can be coerced. *)
Theorem edit_job_in_two_calls {RT : Runtime} (t : tracker) (p : string)
    (a b : list (string * pyval)) :
  forallb coerces (valid_updates a) = true ->
  jobs (fst (edit_job t p (a ++ b)))
    = jobs (fst (edit_job (fst (edit_job t p a)) p b)).
Proof.
  intros Ha. rewrite !edit_job_frame, valid_updates_app.
  destruct (apply_updates_app p (valid_updates a) (valid_updates b) (jobs t) Ha)
    as [Happ _].
  now rewrite Happ.
Qed.

Lemma edit_job_in_two_calls_witness :
  forallb (coerces (RT := iso_runtime))
    (valid_updates [("rate", PStr "60"); ("colour", PStr "red")]) = true
  /\ jobs (fst (edit_job (RT := iso_runtime) one_website "Website"
                  ([("rate", PStr "60"); ("colour", PStr "red")]
                   ++ [("hours", PStr "abc"); ("notes", PStr "rush")])))
     = jobs (fst (edit_job (RT := iso_runtime)
                    (fst (edit_job (RT := iso_runtime) one_website "Website"
                            [("rate", PStr "60"); ("colour", PStr "red")]))
                    "Website" [("hours", PStr "abc"); ("notes", PStr "rush")])).
Proof.
  split; [reflexivity|].
  apply (edit_job_in_two_calls (RT := iso_runtime)). reflexivity.
Defined.

(** X13: the file follows the memory.  From a tracker whose file holds what
    is in memory, [add_job] and [mark_as_paid] give such a tracker again,
    whether they succeed or not, and so does [edit_job] whenever it does
    not raise; when it raises, the file is the one of before. *)
Theorem operations_keep_file_in_sync {RT : Runtime} (t : tracker)
    (client project rate_arg deadline_arg hours_arg notes_arg : pyval) (now : Z)
    (p : string) (kwargs : list (string * pyval)) :
  in_sync t ->
  in_sync (fst (add_job t client project rate_arg deadline_arg hours_arg notes_arg now))
  /\ in_sync (fst (mark_as_paid t p))
  /\ match edit_job t p kwargs with
     | (t', Printed _) => in_sync t'
     | (t', Raised _) => file t' = file t /\ saves t' = saves t
     end.
Proof.
  intros Hs. split; [|split].
  - unfold add_job.
    destruct (new_job _ _ _ _ _ _ _); simpl; [left; reflexivity|exact Hs].
  - unfold mark_as_paid.
    destruct (existsb (named p) (jobs t)); simpl; [left; reflexivity|exact Hs].
  - unfold edit_job.
    destruct (negb (existsb (named p) (jobs t))); [exact Hs|].
    destruct (valid_updates kwargs) as [|u ups]; [exact Hs|].
    destruct (apply_updates p (u :: ups) (jobs t)) as [df [e|]]; simpl.
    + split; reflexivity.
    + left. reflexivity.
Qed.

Lemma operations_keep_file_in_sync_witness :
  in_sync no_jobs
  /\ in_sync (fst (add_job (RT := iso_runtime) no_jobs (PStr "Acme") (PStr "Logo")
                     (PStr "35.5") (PStr "2025-06-01") (PStr "") PNone may_20_2025))
  /\ in_sync (fst (mark_as_paid no_jobs "Logo")).
Proof.
  assert (H0 : in_sync no_jobs) by (right; split; reflexivity).
  split; [exact H0|].
  destruct (operations_keep_file_in_sync (RT := iso_runtime) no_jobs (PStr "Acme")
              (PStr "Logo") (PStr "35.5") (PStr "2025-06-01") (PStr "") PNone
              may_20_2025 "Logo" [] H0) as [Hadd [Hmark _]].
  split; assumption.
Defined.

(** ** The chart *)

Lemma to_period_M_some (t : Z) : to_period_M (Some t) <> None.
Proof.
  unfold to_period_M. destruct (civil_of_days (t / ns_per_day)) as [[y m] d].
  discriminate.
Qed.

Lemma group_keys_nil (keys : list (option Z)) :
  group_keys keys = [] -> forall m, ~ In (Some m) keys.
Proof.
  intros H m Hin. apply group_keys_In in Hin. rewrite H in Hin. destruct Hin.
Qed.

(** X14: which of its four ends [generate_earnings_chart] takes.  It says
    that there are no jobs exactly for the empty collection; that there are
    no paid jobs with hours and rate when no record is paid with both; it
    stops at the third message only if every such record has no date of
    addition; otherwise it plots at least one bar. *)
Theorem generate_earnings_chart_ends (df : frame) :
  match generate_earnings_chart df with
  | NoJobs => df = []
  | NoPaidJobs =>
      df <> [] /\ forall j, In j df -> paid j && both_present j = false
  | NoMonthlyData =>
      (exists j, In j df /\ paid j && both_present j = true)
      /\ forall j, In j df -> paid j && both_present j = true -> date_added j = None
  | Bars b =>
      b <> []
      /\ exists j, In j df /\ paid j && both_present j = true /\ date_added j <> None
  end.
Proof.
  assert (Hsel : forall j, paid j && notna (hours j) && notna (rate j)
                           = paid j && both_present j).
  { intros j. unfold both_present. now rewrite andb_assoc. }
  unfold generate_earnings_chart.
  destruct df as [|j0 df]; [reflexivity|].
  destruct (filter _ (j0 :: df)) as [|j1 sel] eqn:Hf.
  - split; [discriminate|]. intros j Hin. rewrite <- Hsel.
    destruct (paid j && notna (hours j) && notna (rate j)) eqn:Hj; [|reflexivity].
    assert (In j []) as [].
    rewrite <- Hf. apply filter_In. now split.
  - assert (Hj1 : In j1 (j0 :: df) /\ paid j1 && both_present j1 = true).
    { rewrite <- Hsel.
      apply (proj1 (filter_In (fun j => paid j && notna (hours j) && notna (rate j))
                              j1 (j0 :: df))).
      rewrite Hf. now left. }
    destruct (groupby_sum _ _ (j1 :: sel)) as [|e b] eqn:Hg.
    + split; [now exists j1|].
      intros j Hin Hj.
      destruct (date_added j) as [d|] eqn:Hd; [|reflexivity].
      exfalso.
      apply (f_equal (map fst)) in Hg. rewrite groupby_sum_keys in Hg.
      change (map fst []) with (@nil Z) in Hg.
      destruct (to_period_M (Some d)) as [m|] eqn:Hm;
        [|now apply (to_period_M_some d)].
      apply (group_keys_nil _ Hg m). apply in_map_iff. exists j.
      rewrite Hd. split; [exact Hm|].
      rewrite <- Hf. apply filter_In. split; [exact Hin|]. now rewrite Hsel.
    + split; [discriminate|].
      assert (Hin : In (fst e) (group_keys (map (fun j => to_period_M (date_added j))
                                                (j1 :: sel)))).
      { rewrite <- groupby_sum_keys with (val := fun j => fmul (hours j) (rate j)).
        rewrite Hg. now left. }
      apply group_keys_In, in_map_iff in Hin. destruct Hin as [j [Hm Hj]].
      rewrite <- Hf in Hj. apply filter_In in Hj. destruct Hj as [Hin Hj].
      exists j. split; [exact Hin|]. split; [now rewrite <- Hsel|].
      intros Hd. rewrite Hd in Hm. discriminate Hm.
Qed.

(** ** The columns an edit leaves alone *)

Lemma column_eqb_false (a b : column) : column_eqb a b = false -> a <> b.
Proof. intros H E. subst b. now destruct a. Qed.

Lemma assignment_other_cell {RT : Runtime} (c col : column) (v : pyval)
    (f : job -> job) :
  assignment c v = Ok f -> column_eqb c col = false ->
  forall j, cell col (f j) = cell col j.
Proof.
  intros Ha Hne j.
  destruct c; simpl in Ha;
    try (destruct (py_float v); simpl in Ha);
    try (destruct (to_datetime v); simpl in Ha);
    try (destruct (setitem_datetime v); simpl in Ha);
    inversion Ha; subst f; destruct col; try discriminate Hne; reflexivity.
Qed.

Lemma loc_set_cell (mask : job -> bool) (f : job -> job) (col : column) (df : frame) :
  (forall j, cell col (f j) = cell col j) ->
  map (cell col) (loc_set mask f df) = map (cell col) df.
Proof.
  intros Hf. unfold loc_set. rewrite map_map. apply map_ext. intros j.
  now destruct (mask j).
Qed.

Lemma apply_updates_other_cell {RT : Runtime} (p : string) (col : column)
    (ups : list (column * pyval)) :
  forall df : frame,
    existsb (fun cv => column_eqb (fst cv) col) ups = false ->
    map (cell col) (fst (apply_updates p ups df)) = map (cell col) df.
Proof.
  induction ups as [|[c v] ups IH]; simpl; intros df Hno; [reflexivity|].
  apply orb_false_iff in Hno. destruct Hno as [Hc Hups].
  destruct (assignment c v) as [f|e] eqn:Ha; [|reflexivity].
  rewrite IH by exact Hups.
  apply loc_set_cell. now apply (assignment_other_cell c col v).
Qed.

(** X16: [edit_job] changes only the columns named in the mapping: a column
    that is no key of it holds, in every record and after every edit, also
    one that raises, the cell it held before. *)
Theorem edit_job_leaves_other_columns {RT : Runtime} (t : tracker) (p : string)
    (kwargs : list (string * pyval)) (col : column) :
  updates_column col kwargs = false ->
  map (cell col) (jobs (fst (edit_job t p kwargs))) = map (cell col) (jobs t).
Proof.
  intros Hno. rewrite edit_job_frame. now apply apply_updates_other_cell.
Qed.

Lemma edit_job_leaves_other_columns_witness :
  updates_column Hours [("rate", PStr "60"); ("paid", PBool true); ("deadline", PStr "soon")]
    = false
  /\ map (cell Hours)
       (jobs (fst (edit_job (RT := iso_runtime) two_websites "Website"
                     [("rate", PStr "60"); ("paid", PBool true);
                      ("deadline", PStr "soon")])))
     = map (cell Hours) (jobs two_websites).
Proof.
  split; [reflexivity|].
  apply (edit_job_leaves_other_columns (RT := iso_runtime)). reflexivity.
Defined.

(** ** The menu *)

Ltac read_lines H :=
  repeat match type of H with
         | context [match ?l with [] => _ | _ :: _ => _ end] => is_var l; destruct l
         end.

Ltac pick_choice H :=
  repeat match type of H with
         | context [if (?c =? ?k)%string then _ else _] => destruct (c =? k)%string
         end.

Lemma menu_step_next {RT : Runtime} (dt : dtype) (t : tracker) (lines : list string)
    (now : Z) (t' : tracker) (rest : list string) (s : shown) :
  menu_step dt t lines now = Next t' rest s ->
  (List.length rest < List.length lines)%nat
  /\ (t' = t \/ exists m, menu_call t now t' (Printed m)).
Proof.
  unfold menu_step. intros H.
  destruct lines as [|choice lines]; [discriminate H|].
  destruct (choice =? "1")%string.
  { read_lines H; try discriminate H.
    unfold after_call in H.
    destruct (add_job _ _ _ _ _ _ _ _) as [t1 [m|e]] eqn:Hcall; inversion H; subst.
    split; [simpl; lia|]. right. exists m. left. eauto 8. }
  destruct (choice =? "2")%string.
  { inversion H; subst. split; [simpl; lia|now left]. }
  destruct (choice =? "3")%string.
  { inversion H; subst. split; [simpl; lia|now left]. }
  destruct (choice =? "4")%string.
  { inversion H; subst. split; [simpl; lia|now left]. }
  destruct (choice =? "5")%string.
  { read_lines H; try discriminate H.
    unfold after_call in H.
    destruct (mark_as_paid _ _) as [t1 [m|e]] eqn:Hcall; inversion H; subst.
    split; [simpl; lia|]. right. exists m. right. left. eauto. }
  destruct (choice =? "6")%string.
  { unfold after_stats in H. destruct (get_stats dt (jobs t) now); inversion H; subst.
    split; [simpl; lia|now left]. }
  destruct (choice =? "7")%string.
  { read_lines H; try discriminate H.
    destruct (menu_updates _ _ _ _ _ _) as [|u ups] eqn:Hu.
    - inversion H; subst. split; [simpl; lia|now left].
    - rewrite <- Hu in H. unfold after_call in H.
      destruct (edit_job _ _ _) as [t1 [m|e]] eqn:Hcall; inversion H; subst.
      split; [simpl; lia|]. right. exists m. right. right. eauto 10. }
  destruct (choice =? "8")%string.
  { inversion H; subst. split; [simpl; lia|now left]. }
  destruct (choice =? "9")%string; [discriminate H|].
  inversion H; subst. split; [simpl; lia|now left].
Qed.

Lemma menu_step_stop {RT : Runtime} (dt : dtype) (t : tracker) (lines : list string)
    (now : Z) (t' : tracker) (e : ending) :
  menu_step dt t lines now = Stop t' e ->
  t' = t \/ (exists x, e = Uncaught x /\ menu_call t now t' (Raised x)).
Proof.
  unfold menu_step. intros H.
  destruct lines as [|choice lines]; [inversion H; auto|].
  destruct (choice =? "1")%string.
  { read_lines H; try (inversion H; now auto).
    unfold after_call in H.
    destruct (add_job _ _ _ _ _ _ _ _) as [t1 [m|x]] eqn:Hcall; inversion H; subst.
    right. exists x. split; [reflexivity|]. left. eauto 8. }
  destruct (choice =? "2")%string; [discriminate H|].
  destruct (choice =? "3")%string; [discriminate H|].
  destruct (choice =? "4")%string; [discriminate H|].
  destruct (choice =? "5")%string.
  { read_lines H; try (inversion H; now auto).
    unfold after_call in H.
    destruct (mark_as_paid _ _) as [t1 [m|x]] eqn:Hcall; inversion H; subst.
    right. exists x. split; [reflexivity|]. right. left. eauto. }
  destruct (choice =? "6")%string.
  { unfold after_stats in H. destruct (get_stats dt (jobs t) now); inversion H; subst.
    now left. }
  destruct (choice =? "7")%string.
  { read_lines H; try (inversion H; now auto).
    destruct (menu_updates _ _ _ _ _ _) as [|u ups] eqn:Hu; [discriminate H|].
    rewrite <- Hu in H. unfold after_call in H.
    destruct (edit_job _ _ _) as [t1 [m|x]] eqn:Hcall; inversion H; subst.
    right. exists x. split; [reflexivity|]. right. right. eauto 10. }
  destruct (choice =? "8")%string; [discriminate H|].
  destruct (choice =? "9")%string; [inversion H; auto|].
  discriminate H.
Qed.

(** The loop of [main] ends within its fuel, and a property that every turn
    keeps holds at its end. *)
Lemma main_loop_ends {RT : Runtime} (dt : dtype) (P : tracker -> Prop)
    (Q : tracker -> ending -> Prop) :
  (forall t now t' m, P t -> menu_call t now t' (Printed m) -> P t') ->
  (forall t e, P t -> Q t e) ->
  (forall t now t' x, P t -> menu_call t now t' (Raised x) -> Q t' (Uncaught x)) ->
  forall (fuel : nat) (clock : nat -> Z) (i : nat) (t : tracker) (lines : list string),
    (List.length lines < fuel)%nat -> P t ->
    exists t' out e, main_loop dt fuel clock i t lines = Some (t', out, e) /\ Q t' e.
Proof.
  intros Hnext Hquit Hcrash.
  induction fuel as [|fuel IH]; intros clock i t lines Hfuel Ht; [lia|].
  simpl. destruct (menu_step dt t lines (clock i)) as [t1 rest s|t1 e] eqn:Hstep.
  - apply menu_step_next in Hstep. destruct Hstep as [Hlen Hcall].
    assert (Ht1 : P t1).
    { destruct Hcall as [->|[m Hcall]]; [exact Ht|]. eapply Hnext; eauto. }
    destruct (IH clock (S i) t1 rest ltac:(lia) Ht1) as [t' [out [e [Hrun He]]]].
    rewrite Hrun. eauto 6.
  - exists t1, [], e. split; [reflexivity|].
    apply menu_step_stop in Hstep.
    destruct Hstep as [->|[x [-> Hcall]]].
    + now apply Hquit.
    + eapply Hcrash; eauto.
Qed.

Lemma menu_updates_columns
    (client rate_ans deadline_ans hours_ans paid_ans notes_ans : string) :
  updates_column ProjectName
    (menu_updates client rate_ans deadline_ans hours_ans paid_ans notes_ans) = false
  /\ updates_column DateAdded
       (menu_updates client rate_ans deadline_ans hours_ans paid_ans notes_ans) = false.
Proof.
  unfold updates_column, menu_updates, update_if_given.
  destruct (client =? "")%string, (rate_ans =? "")%string,
    (deadline_ans =? "")%string, (hours_ans =? "")%string,
    (lower paid_ans =? "yes")%string, (lower paid_ans =? "no")%string,
    (notes_ans =? "")%string; split; reflexivity.
Qed.

Lemma identity_of_cells (df df' : frame) :
  map (cell ProjectName) df' = map (cell ProjectName) df ->
  map (cell DateAdded) df' = map (cell DateAdded) df ->
  map identity df' = map identity df.
Proof.
  revert df'. induction df as [|j df IH]; intros [|j' df'] Hp Hd;
    try discriminate Hp; [reflexivity|].
  simpl in *. inversion Hp. inversion Hd.
  unfold identity at 1 3. f_equal; [congruence|]. now apply IH.
Qed.

Lemma menu_call_identities {RT : Runtime} (t : tracker) (now : Z) (t' : tracker)
    (o : outcome) :
  menu_call t now t' o ->
  exists added, map identity (jobs t') = map identity (jobs t) ++ added.
Proof.
  intros [Hadd|[Hmark|Hedit]].
  - destruct Hadd as (c & p & r & d & h & n & Hadd).
    unfold add_job in Hadd. destruct (new_job _ _ _ _ _ _ _) as [j|e];
      inversion Hadd; subst; simpl.
    + exists [identity j]. apply map_app.
    + exists []. now rewrite app_nil_r.
  - destruct Hmark as [p Hmark]. exists []. rewrite app_nil_r.
    unfold mark_as_paid in Hmark.
    destruct (existsb (named p) (jobs t)); inversion Hmark; subst; simpl;
      [|reflexivity].
    unfold loc_set. rewrite map_map. apply map_ext. intros j.
    now destruct (named p j).
  - destruct Hedit as (p & c & r & d & h & pa & n & Hedit).
    exists []. rewrite app_nil_r.
    replace t' with (fst (edit_job t p (menu_updates c r d h pa n)))
      by now rewrite Hedit.
    destruct (menu_updates_columns c r d h pa n) as [Hp Hd].
    apply identity_of_cells; rewrite edit_job_frame;
      now apply apply_updates_other_cell.
Qed.

(** X17: whatever is typed at the menu, [main] comes to an end, and at that
    end the records it started with are all there, in their places, each
    with the project name and the date of addition it had; what has been
    added comes after them. *)
Theorem main_keeps_records_and_identities {RT : Runtime} (dt : dtype) (t : tracker)
    (clock : nat -> Z) (lines : list string) :
  exists (t' : tracker) (out : list shown) (e : ending),
    main dt t clock lines = Some (t', out, e)
    /\ exists added, map identity (jobs t') = map identity (jobs t) ++ added.
Proof.
  unfold main.
  apply (main_loop_ends dt
           (fun t1 => exists added, map identity (jobs t1) = map identity (jobs t) ++ added)
           (fun t1 _ => exists added,
                map identity (jobs t1) = map identity (jobs t) ++ added)).
  - intros t1 now t2 m [a1 H1] Hcall.
    apply menu_call_identities in Hcall. destruct Hcall as [a2 H2].
    exists (a1 ++ a2). now rewrite H2, H1, app_assoc.
  - intros t1 e H. exact H.
  - intros t1 now t2 x [a1 H1] Hcall.
    apply menu_call_identities in Hcall. destruct Hcall as [a2 H2].
    exists (a1 ++ a2). now rewrite H2, H1, app_assoc.
  - lia.
  - exists []. now rewrite app_nil_r.
Qed.

Lemma menu_call_in_sync {RT : Runtime} (t : tracker) (now : Z) (t' : tracker)
    (m : message) :
  in_sync t -> menu_call t now t' (Printed m) -> in_sync t'.
Proof.
  intros Hs [Hadd|[Hmark|Hedit]].
  - destruct Hadd as (c & p & r & d & h & n & Hadd).
    unfold add_job in Hadd. destruct (new_job _ _ _ _ _ _ _) as [j|e];
      inversion Hadd; subst. left. reflexivity.
  - destruct Hmark as [p Hmark]. unfold mark_as_paid in Hmark.
    destruct (existsb (named p) (jobs t)); inversion Hmark; subst;
      [left; reflexivity|exact Hs].
  - destruct Hedit as (p & c & r & d & h & pa & n & Hedit).
    unfold edit_job in Hedit.
    destruct (negb (existsb (named p) (jobs t))); [inversion Hedit; now subst|].
    destruct (menu_updates c r d h pa n) as [|kv kwargs]; [inversion Hedit; now subst|].
    destruct (valid_updates (kv :: kwargs)) as [|u ups]; [inversion Hedit; now subst|].
    destruct (apply_updates p (u :: ups) (jobs t)) as [df [e|]];
      inversion Hedit; subst. left. reflexivity.
Qed.

(** X18: nothing typed at the menu is lost on leaving.  From a tracker whose
    file holds what is in memory, [main] comes to an end, and unless it ends
    by an uncaught exception, by choice 9 or at the end of the input alike,
    the file holds the records that are in memory. *)
Theorem main_leaves_file_in_sync {RT : Runtime} (dt : dtype) (t : tracker)
    (clock : nat -> Z) (lines : list string) :
  in_sync t ->
  exists (t' : tracker) (out : list shown) (e : ending),
    main dt t clock lines = Some (t', out, e)
    /\ (in_sync t' \/ exists x, e = Uncaught x).
Proof.
  intros Hs. unfold main.
  apply (main_loop_ends dt in_sync
           (fun t1 e => in_sync t1 \/ exists x, e = Uncaught x)).
  - intros t1 now t2 m H1 Hcall. now apply (menu_call_in_sync t1 now t2 m).
  - intros t1 e H. now left.
  - intros t1 now t2 x _ _. right. now exists x.
  - lia.
  - exact Hs.
Qed.

Lemma main_leaves_file_in_sync_witness :
  in_sync no_jobs
  /\ exists (t' : tracker) (out : list shown) (e : ending),
       main (RT := iso_runtime) ObjectDtype no_jobs noon_clock session_lines
       = Some (t', out, e)
       /\ (in_sync t' \/ exists x, e = Uncaught x).
Proof.
  assert (H0 : in_sync no_jobs) by (right; split; reflexivity).
  split; [exact H0|].
  exact (main_leaves_file_in_sync (RT := iso_runtime) ObjectDtype no_jobs noon_clock
           session_lines H0).
Defined.

Lemma answered_updates (col : column)
    (client rate_ans deadline_ans hours_ans paid_ans notes_ans : string) :
  answered col client rate_ans deadline_ans hours_ans paid_ans notes_ans = false ->
  updates_column col
    (menu_updates client rate_ans deadline_ans hours_ans paid_ans notes_ans) = false.
Proof.
  unfold answered, updates_column, menu_updates, update_if_given.
  destruct (client =? "")%string, (rate_ans =? "")%string,
    (deadline_ans =? "")%string, (hours_ans =? "")%string,
    (lower paid_ans =? "yes")%string, (lower paid_ans =? "no")%string,
    (notes_ans =? "")%string, col; simpl; intros H;
    first [reflexivity | discriminate H].
Qed.

(** X19: "Leave blank to keep current value".  At choice 7, a column whose
    prompt is not answered keeps its cells in every record, whether the edit
    succeeds, finds no such project, or raises on another answer; the
    answer to the prompt for [paid] counts only if it is yes or no. *)
Theorem menu_edit_blank_keeps_column {RT : Runtime} (dt : dtype) (t : tracker) (now : Z)
    (project client rate_ans deadline_ans hours_ans paid_ans notes_ans : string)
    (rest : list string) (col : column) :
  answered col client rate_ans deadline_ans hours_ans paid_ans notes_ans = false ->
  map (cell col)
      (jobs (step_tracker
               (menu_step dt t ("7" :: project :: client :: rate_ans :: deadline_ans
                               :: hours_ans :: paid_ans :: notes_ans :: rest) now)))
    = map (cell col) (jobs t).
Proof.
  intros Hblank. apply answered_updates in Hblank.
  unfold menu_step. cbn [String.eqb Ascii.eqb Bool.eqb].
  destruct (menu_updates _ _ _ _ _ _) as [|u ups] eqn:Hu; [reflexivity|].
  rewrite <- Hu in Hblank |- *.
  assert (Ht : step_tracker
                 (after_call (edit_job t project
                                (menu_updates client rate_ans deadline_ans hours_ans
                                              paid_ans notes_ans)) rest)
               = fst (edit_job t project
                        (menu_updates client rate_ans deadline_ans hours_ans
                                      paid_ans notes_ans))).
  { unfold after_call. destruct (edit_job _ _ _) as [t1 [m|e]]; reflexivity. }
  rewrite Ht, edit_job_frame. now apply apply_updates_other_cell.
Qed.

Lemma menu_edit_blank_keeps_column_witness :
  answered Paid "Globex" "abc" "" "" "maybe" "" = false
  /\ map (cell Paid)
       (jobs (step_tracker
                (menu_step (RT := iso_runtime) BoolDtype one_website
                   ["7"; "Website"; "Globex"; "abc"; ""; ""; "maybe"; ""; "9"]
                   may_20_2025)))
     = map (cell Paid) (jobs one_website).
Proof.
  split; [reflexivity|].
  apply (menu_edit_blank_keeps_column (RT := iso_runtime)). reflexivity.
Defined.

(** X20: at choice 1 the hours left blank are stored as absent, and any
    other answer as the number that [float] reads in it, so that 0 typed
    there is 0 hours; notes left blank are stored as absent.  The record
    is added after the others and the six answers are consumed. *)
Theorem menu_add_reads_hours {RT : Runtime} (dt : dtype) (t : tracker) (now : Z)
    (client project rate_ans deadline_ans hours_ans notes_ans : string)
    (rest : list string) (t' : tracker) (rest' : list string) (s : shown) :
  menu_step dt t ("1" :: client :: project :: rate_ans :: deadline_ans :: hours_ans
                    :: notes_ans :: rest) now = Next t' rest' s ->
  rest' = rest
  /\ exists j : job,
       jobs t' = jobs t ++ [j]
       /\ client_name j = PStr client /\ project_name j = PStr project
       /\ ((hours_ans = "" /\ hours j = NaN)
           \/ (hours_ans <> "" /\ float_of_str hours_ans = Some (hours j)))
       /\ notes j = (if (notes_ans =? "")%string then PNone else PStr notes_ans).
Proof.
  unfold menu_step. cbn [String.eqb Ascii.eqb Bool.eqb].
  unfold after_call, add_job, new_job, blank_to_none. intros H.
  destruct (py_float (PStr rate_ans)) as [r|e]; simpl in H; [|discriminate H].
  destruct (to_datetime (PStr deadline_ans)) as [d|e]; simpl in H; [|discriminate H].
  destruct (hours_ans =? "")%string eqn:Hh; simpl in H.
  - inversion H; subst. split; [reflexivity|]. eexists. split; [reflexivity|].
    simpl. repeat split. left. apply String.eqb_eq in Hh. now split.
  - rewrite Hh in H. simpl in H.
    destruct (float_of_str hours_ans) as [x|] eqn:Hx; simpl in H; [|discriminate H].
    inversion H; subst. split; [reflexivity|]. eexists. split; [reflexivity|].
    simpl. repeat split. right. apply String.eqb_neq in Hh. now split.
Qed.

Lemma menu_add_reads_hours_witness :
  menu_step (RT := iso_runtime) ObjectDtype no_jobs
    ["1"; "Acme"; "Logo"; "35.5"; "2025-06-01"; "0"; ""; "9"] may_20_2025
  = Next (mkTracker
            [mkJob (PStr "Acme") (PStr "Logo") (Fin (71 # 2)) false (Some jun_1_2025)
                   (Some may_20_2025) (Fin 0) PNone]
            (Some [mkJob (PStr "Acme") (PStr "Logo") (Fin (71 # 2)) false
                         (Some jun_1_2025) (Some may_20_2025) (Fin 0) PNone])
            1)
         ["9"] (ShownMessage (JobAdded (PStr "Logo") (PStr "Acme")))
  /\ exists j : job,
       [mkJob (PStr "Acme") (PStr "Logo") (Fin (71 # 2)) false (Some jun_1_2025)
              (Some may_20_2025) (Fin 0) PNone] = jobs no_jobs ++ [j]
       /\ float_of_str (Runtime := iso_runtime) "0" = Some (hours j).
Proof.
  assert (H : menu_step (RT := iso_runtime) ObjectDtype no_jobs
                ["1"; "Acme"; "Logo"; "35.5"; "2025-06-01"; "0"; ""; "9"] may_20_2025
              = Next (mkTracker
                        [mkJob (PStr "Acme") (PStr "Logo") (Fin (71 # 2)) false
                               (Some jun_1_2025) (Some may_20_2025) (Fin 0) PNone]
                        (Some [mkJob (PStr "Acme") (PStr "Logo") (Fin (71 # 2)) false
                                     (Some jun_1_2025) (Some may_20_2025) (Fin 0) PNone])
                        1)
                     ["9"] (ShownMessage (JobAdded (PStr "Logo") (PStr "Acme"))))
    by reflexivity.
  split; [exact H|].
  destruct (menu_add_reads_hours (RT := iso_runtime) _ _ _ _ _ _ _ _ _ _ _ _ _ H)
    as [_ [j [Hj [_ [_ [[[Habs _]|[_ Hhours]] _]]]]]].
  - discriminate Habs.
  - exists j. split; assumption.
Defined.

(** * Saving and loading *)











(** The example of the description: a job for Acme, project Website, at a
    rate of 50 for 10 hours, is listed with an estimated pay of 500 after
    saving and loading. *)
Example reload_website_estimated_pay :
  keeps_text (CL := plain_csv) (map project_name (jobs one_website)) = true
  /\ map project_name (reload (CL := plain_csv) one_website) = [PStr "Website"]
  /\ map estimated_pay
       (list_jobs (reload (CL := plain_csv) one_website) false None may_20_2025)
     = [Fin (500 # 1)].
Proof. repeat split. Qed.

(** * Statistics in a session started without a file *)

Lemma add_job_printed_not_empty {RT : Runtime} (t : tracker)
    (client project rate_arg deadline_arg hours_arg notes_arg : pyval) (now : Z)
    (t' : tracker) (m : message) :
  add_job t client project rate_arg deadline_arg hours_arg notes_arg now
    = (t', Printed m) ->
  jobs t' <> [].
Proof.
  unfold add_job.
  destruct (new_job _ _ _ _ _ _ _) as [j|e]; intros H; inversion H; subst.
  simpl. now destruct (jobs t).
Qed.

(** X21: statistics fail in a session that started without a file.  There
    [load_data] gives the empty frame with an object column [paid], and
    once a job has been added at choice 1, choice 6 ends [main] with an
    uncaught KeyError: nothing is shown and the tracker is left as it
    was. *)
Theorem stats_raise_in_session_without_file {RT : Runtime} {CL : CsvLib}
    (t : tracker) (answers : list string) (now : Z) (t' : tracker)
    (rest : list string) (s : shown) (lines : list string) (now' : Z) :
  menu_step ObjectDtype t ("1" :: answers) now = Next t' rest s ->
  load_data None = ([], ObjectDtype)
  /\ menu_step ObjectDtype t' ("6" :: lines) now' = Stop t' (Uncaught KeyError).
Proof.
  intros H. split; [reflexivity|].
  assert (Hne : jobs t' <> []).
  { unfold menu_step in H. cbn [String.eqb Ascii.eqb Bool.eqb] in H.
    read_lines H; try discriminate H.
    unfold after_call in H.
    destruct (add_job _ _ _ _ _ _ _ _) as [t1 [m|e]] eqn:Hcall; inversion H; subst.
    now apply add_job_printed_not_empty in Hcall. }
  unfold menu_step. cbn [String.eqb Ascii.eqb Bool.eqb].
  unfold get_stats. destruct (jobs t') as [|j df]; [contradiction|]. reflexivity.
Qed.

Lemma stats_raise_in_session_without_file_witness :
  main (RT := iso_runtime) ObjectDtype no_jobs noon_clock
    ["1"; "Acme"; "Logo"; "35.5"; "2025-06-01"; "4"; ""; "6"; "9"]
  = Some (mkTracker
            [mkJob (PStr "Acme") (PStr "Logo") (Fin (71 # 2)) false (Some jun_1_2025)
                   (Some may_20_2025) (Fin 4) PNone]
            (Some [mkJob (PStr "Acme") (PStr "Logo") (Fin (71 # 2)) false
                         (Some jun_1_2025) (Some may_20_2025) (Fin 4) PNone])
            1,
          [ShownMessage (JobAdded (PStr "Logo") (PStr "Acme"))],
          Uncaught KeyError)
  /\ menu_step (RT := iso_runtime) ObjectDtype
       (mkTracker
          [mkJob (PStr "Acme") (PStr "Logo") (Fin (71 # 2)) false (Some jun_1_2025)
                 (Some may_20_2025) (Fin 4) PNone]
          (Some [mkJob (PStr "Acme") (PStr "Logo") (Fin (71 # 2)) false
                       (Some jun_1_2025) (Some may_20_2025) (Fin 4) PNone])
          1)
       ["6"; "9"] (noon_clock 1)
     = Stop (mkTracker
               [mkJob (PStr "Acme") (PStr "Logo") (Fin (71 # 2)) false (Some jun_1_2025)
                      (Some may_20_2025) (Fin 4) PNone]
               (Some [mkJob (PStr "Acme") (PStr "Logo") (Fin (71 # 2)) false
                            (Some jun_1_2025) (Some may_20_2025) (Fin 4) PNone])
               1)
            (Uncaught KeyError).
Proof.
  split; [reflexivity|].
  apply (stats_raise_in_session_without_file (RT := iso_runtime) (CL := plain_csv)
           no_jobs ["Acme"; "Logo"; "35.5"; "2025-06-01"; "4"; ""; "6"; "9"]
           (noon_clock 0) _ ["6"; "9"]
           (ShownMessage (JobAdded (PStr "Logo") (PStr "Acme")))).
  reflexivity.
Defined.
